(** * Authentication flow of the identity front door

    A shallow embedding of the user controllers (the handlers that follow
    the validator tests in src/test/security.test.js): they move a browser
    session between the anonymous, email-pending and authenticated states.

    Conventions of the embedding.
    - A JavaScript string is a [string] that holds its UTF-8 encoding,
      which is well formed for a string decoded from a request: an ASCII
      character is one byte, any other character the bytes of its encoding.
      Concatenation, equality and emptiness read the same on both sides;
      [utf8_chars] splits a string into its characters.
    - [undefined] is [None]; a value is truthy when it is a non-empty string.
    - [req.session] is mutated in place by the handlers: it is the
      [session] component of the [World] threaded through every handler,
      next to the persistent store the managers work on.
    - A [try { ... } catch (error) { ... }] block is [try_catch]: the block
      runs in a state-and-exception monad, and the catch clause sees the
      world as the block left it. *)

From Stdlib Require Import Ascii String.
From stdpp Require Import base gmap strings list pretty.

(** ** Values *)

Definition is_empty_string (s : string) : bool :=
  match s with EmptyString => true | String _ _ => false end.

(** Truthiness of an optional string: [undefined] and [''] are falsy.
    lodash's [isEmpty] on such a value is its negation. *)
Definition truthy (v : option string) : bool :=
  match v with
  | Some s => negb (is_empty_string s)
  | None => false
  end.

Definition isEmpty (v : option string) : bool := negb (truthy v).

(** [`${v}`] inside a template literal. *)
Definition template (v : option string) : string :=
  match v with Some s => s | None => "undefined" end.

(** *** Characters

    The number of bytes of the UTF-8 sequence that the byte [c] starts. *)
Definition utf8_width (c : ascii) : nat :=
  let n := nat_of_ascii c in
  if Nat.ltb n 192 then 1
  else if Nat.ltb n 224 then 2
  else if Nat.ltb n 240 then 3
  else if Nat.ltb n 248 then 4
  else 1.

(** Splits the rest [s] of a string, [cur] being the character under way and
    [pending] the number of bytes it still takes. *)
Fixpoint utf8_chars_from (pending : nat) (cur : string) (s : string)
    : list string :=
  match s with
  | EmptyString => [cur]
  | String c r =>
      match pending with
      | S k => utf8_chars_from k (cur +:+ String c EmptyString) r
      | O => cur :: utf8_chars_from (utf8_width c - 1) (String c EmptyString) r
      end
  end.

(** The characters of a string, each as the bytes of its encoding. *)
Definition utf8_chars (s : string) : list string :=
  match s with
  | EmptyString => []
  | String c r => utf8_chars_from (utf8_width c - 1) (String c EmptyString) r
  end.

Definition join (l : list string) : string := foldr String.append EmptyString l.

Definition byte (n : N) : ascii := ascii_of_N n.

(** The string of the given bytes. *)
Definition bytes (l : list N) : string :=
  foldr (fun n s => String (byte n) s) EmptyString l.

(** The UTF-8 encoding of a code point. *)
Definition utf8_encode (n : N) : string :=
  (if n <? 128 then String (byte n) EmptyString
   else if n <? 2048 then
     String (byte (192 + n / 64)) (String (byte (128 + n mod 64)) EmptyString)
   else if n <? 65536 then
     String (byte (224 + n / 4096))
       (String (byte (128 + (n / 64) mod 64))
          (String (byte (128 + n mod 64)) EmptyString))
   else
     String (byte (240 + n / 262144))
       (String (byte (128 + (n / 4096) mod 64))
          (String (byte (128 + (n / 64) mod 64))
             (String (byte (128 + n mod 64)) EmptyString))))%N.

(** The class [\s] of a regular expression: the white space and the line
    terminators of ECMAScript, U+0009 to U+000D, U+0020, U+00A0, U+1680,
    U+2000 to U+200A, U+2028, U+2029, U+202F, U+205F, U+3000 and U+FEFF. *)
Definition js_whitespace_code_points : list N :=
  [9; 10; 11; 12; 13; 32; 160; 5760;
   8192; 8193; 8194; 8195; 8196; 8197; 8198; 8199; 8200; 8201; 8202;
   8232; 8233; 8239; 8287; 12288; 65279]%N.

(** Whether the character [u] is in the class [\s]. *)
Definition is_js_space (u : string) : bool :=
  existsb (String.eqb u) (map utf8_encode js_whitespace_code_points).

(** [val.replace(/\s+/g, '')]: the characters outside the class, in order. *)
Definition strip_whitespace (s : string) : string :=
  join (filter (fun u => is_js_space u = false) (utf8_chars s)).

Definition has_whitespace (s : string) : bool :=
  existsb is_js_space (utf8_chars s).

(** A character is complete when it has all the bytes its first byte
    announces; the last character of a string may be cut short. *)
Definition complete (u : string) : Prop :=
  match u with
  | EmptyString => False
  | String c v => String.length v = utf8_width c - 1
  end.

Definition partial (u : string) : Prop :=
  match u with
  | EmptyString => False
  | String c v => String.length v <= utf8_width c - 1
  end.

Inductive chunked : list string -> Prop :=
| chunked_nil : chunked []
| chunked_last u : partial u -> chunked [u]
| chunked_cons u l : complete u -> chunked l -> chunked (u :: l).

(** ** Data model *)

Record User := mkUser {
  user_id : nat;
  user_email : string;
  user_encrypted_password : option string;
  user_email_verified_at : option nat;
  user_given_name : string;
  user_family_name : string;
  user_phone_number : string;
  user_job : string
}.

Record Session := mkSession {
  session_email : option string;
  session_user : option User;
  session_interactionId : option string;
  session_referer : option string
}.

Definition set_session_email (v : option string) (s : Session) : Session :=
  mkSession v (session_user s) (session_interactionId s) (session_referer s).

Definition set_session_user (v : option User) (s : Session) : Session :=
  mkSession (session_email s) v (session_interactionId s) (session_referer s).

Definition set_session_referer (v : option string) (s : Session) : Session :=
  mkSession (session_email s) (session_user s) (session_interactionId s) v.

Record Request := mkRequest {
  req_body : gmap string string;
  req_query : gmap string string;
  req_origin : option string;
  req_csrfToken : string
}.

(** The errors the handlers tell apart with [instanceof]. *)
Inductive Error :=
| ZodError (issues : list string)
| InvalidEmailError (didYouMean : option string)
| InvalidCredentialsError
| InvalidMagicLinkError
| InvalidTokenError
| WeakPasswordError
| EmailUnavailableError
| EmailVerifiedAlreadyError
| TypeError
| OtherError (message : string).

Inductive Res (A : Type) :=
| Ok (a : A)
| Throw (e : Error).
Arguments Ok {A} a.
Arguments Throw {A} e.

Inductive Response :=
| Redirect (url : string)
| Render (view : string) (locals : list (string * string))
| Next
| NextError (e : Error).

Record PersonalInformations := mkPersonalInformations {
  given_name : string;
  family_name : string;
  phone_number : string;
  job : string
}.

(** ** Collaborators

    The managers (src/managers/user), [isUrlTrusted] (src/services/security)
    and [emailSchema] (src/services/custom-zod-schemas) are imported by the
    controllers.  A manager works on the store only: it never sees [req]. *)

Record Managers (DB : Type) := mkManagers {
  startLogin : string -> DB -> Res (string * bool) * DB;
  login : option string -> string -> DB -> Res User * DB;
  signup : option string -> string -> DB -> Res User * DB;
  sendSendMagicLinkEmail : option string -> option string -> DB -> Res unit * DB;
  loginWithMagicLink : string -> DB -> Res User * DB;
  sendEmailAddressVerificationEmail : string -> bool -> DB -> Res bool * DB;
  verifyEmail : string -> string -> DB -> Res User * DB;
  sendResetPasswordEmail : string -> option string -> DB -> Res unit * DB;
  changePassword : string -> string -> DB -> Res unit * DB;
  updatePersonalInformations : nat -> PersonalInformations -> DB -> Res User * DB;
  isUrlTrusted : string -> bool;
  emailSchema : option string -> option string
}.
Arguments startLogin {DB} _ _ _.
Arguments login {DB} _ _ _ _.
Arguments signup {DB} _ _ _ _.
Arguments sendSendMagicLinkEmail {DB} _ _ _ _.
Arguments loginWithMagicLink {DB} _ _ _.
Arguments sendEmailAddressVerificationEmail {DB} _ _ _ _.
Arguments verifyEmail {DB} _ _ _ _.
Arguments sendResetPasswordEmail {DB} _ _ _ _.
Arguments changePassword {DB} _ _ _ _.
Arguments updatePersonalInformations {DB} _ _ _ _.
Arguments isUrlTrusted {DB} _ _.
Arguments emailSchema {DB} _ _.

(** ** The handler monad *)

Record World (DB : Type) := mkWorld {
  session : Session;
  db : DB
}.
Arguments mkWorld {DB} _ _.
Arguments session {DB} _.
Arguments db {DB} _.

Definition Ctl (DB A : Type) : Type := World DB -> Res A * World DB.

Definition throw {DB A} (e : Error) : Ctl DB A := fun w => (Throw e, w).

#[global] Instance Ctl_ret {DB} : MRet (Ctl DB) :=
  fun A a w => (Ok a, w).

#[global] Instance Ctl_bind {DB} : MBind (Ctl DB) :=
  fun A B k m w =>
    match m w with
    | (Ok a, w') => k a w'
    | (Throw e, w') => (Throw e, w')
    end.

Definition ret {DB A} (a : A) : Ctl DB A := mret a.

(** [await manager(...)]: the call may change the store, not the session. *)
Definition await {DB A} (call : DB -> Res A * DB) : Ctl DB A :=
  fun w => let (r, d) := call (db w) in (r, mkWorld (session w) d).

Definition of_res {DB A} (r : Res A) : Ctl DB A := fun w => (r, w).

Definition get_session {DB} : Ctl DB Session := fun w => (Ok (session w), w).

Definition modify_session {DB} (f : Session -> Session) : Ctl DB unit :=
  fun w => (Ok tt, mkWorld (f (session w)) (db w)).

(** [req.session.user!.field]: reading a property of [undefined] throws. *)
Definition session_user_field {DB A} (f : User -> A) : Ctl DB A :=
  fun w =>
    match session_user (session w) with
    | Some u => (Ok (f u), w)
    | None => (Throw TypeError, w)
    end.

(** [try { body } catch (error) { handler }], every handler ending in a
    response: the catch clause reads the world as the block left it. *)
Definition try_catch {DB} (body : Ctl DB Response)
    (handler : Error -> World DB -> Response) : World DB -> Response * World DB :=
  fun w =>
    match body w with
    | (Ok r, w') => (r, w')
    | (Throw e, w') => (handler e w', w')
    end.

(** ** Payload schemas *)

(** [z.string().min(1)] on one property of the parsed object. *)
Definition min1 (v : option string) : option string :=
  match v with
  | Some s => if is_empty_string s then None else Some s
  | None => None
  end.

(** [z.object({ f: z.string().min(1) })]: the issue carries the path of [f]. *)
Definition parse_string (f : string) (obj : gmap string string) : Res string :=
  match min1 (obj !! f) with
  | Some s => Ok s
  | None => Throw (ZodError [f])
  end.

(** An object schema reports the issues of all its properties together. *)
Definition parse_string2 (f g : string) (obj : gmap string string)
    : Res (string * string) :=
  match min1 (obj !! f), min1 (obj !! g) with
  | Some a, Some b => Ok (a, b)
  | None, Some _ => Throw (ZodError [f])
  | Some _, None => Throw (ZodError [g])
  | None, None => Throw (ZodError [f; g])
  end.

(** [z.object({ login: emailSchema() })] *)
Definition parse_email {DB} (M : Managers DB) (f : string)
    (obj : gmap string string) : Res string :=
  match emailSchema M (obj !! f) with
  | Some e => Ok e
  | None => Throw (ZodError [f])
  end.

(** Modelled from the spec: [hasErrorFromField]
    (src/services/has-error-from-field) is not among the sources; section 7
    speaks of input-validation errors for a malformed payload shape, and the
    helper is read as: the error has an issue on that property. *)
Definition hasErrorFromField (e : Error) (f : string) : bool :=
  match e with
  | ZodError issues => bool_decide (f ∈ issues)
  | _ => false
  end.

(** ** The controllers *)

Section Controllers.
Context {DB : Type} (M : Managers DB).

Definition Controller : Type := Request -> World DB -> Response * World DB.

Definition issueSessionOrRedirectController : Controller := fun req =>
  try_catch
    (s ← get_session;
     if truthy (session_interactionId s) then
       ret (Redirect ("/interaction/" +:+ template (session_interactionId s)
                        +:+ "/login"))
     else if truthy (session_referer s)
               && isUrlTrusted M (template (session_referer s)) then
       let referer := template (session_referer s) in
       modify_session (set_session_referer None);;
       ret (Redirect referer)
     else ret (Redirect "/"))
    (fun error _ => NextError error).

Definition postStartSignInController : Controller := fun req =>
  try_catch
    (login ← of_res (parse_email M "login" (req_body req));
     '(email, userExists) ← await (startLogin M login);
     modify_session (set_session_email (Some email));;
     ret (Redirect ("/users/" +:+ (if userExists : bool then "sign-in" else "sign-up"))))
    (fun error _ =>
       match error with
       | InvalidEmailError didYouMean =>
           let didYouMeanQueryParam :=
             if truthy didYouMean
             then "&did_you_mean=" +:+ template didYouMean
             else "" in
           Redirect ("/users/start-sign-in?notification=invalid_email&login_hint="
                       +:+ template (req_body req !! "login")
                       +:+ didYouMeanQueryParam)
       | ZodError _ =>
           Redirect ("/users/start-sign-in?notification=invalid_email&login_hint="
                       +:+ template (req_body req !! "login"))
       | _ => NextError error
       end).

Definition postSignInMiddleware : Controller := fun req =>
  try_catch
    (password ← of_res (parse_string "password" (req_body req));
     s ← get_session;
     u ← await (login M (session_email s) password);
     modify_session (set_session_user (Some u));;
     modify_session (set_session_email None);;
     ret Next)
    (fun error _ =>
       match error with
       | InvalidCredentialsError | ZodError _ =>
           Redirect "/users/sign-in?notification=invalid_credentials"
       | _ => NextError error
       end).

Definition postSignUpController : Controller := fun req =>
  try_catch
    (password ← of_res (parse_string "password" (req_body req));
     s ← get_session;
     u ← await (signup M (session_email s) password);
     modify_session (set_session_user (Some u));;
     modify_session (set_session_email None);;
     ret Next)
    (fun error _ =>
       match error with
       | EmailUnavailableError =>
           Redirect "/users/start-sign-in?notification=email_unavailable"
       | WeakPasswordError =>
           Redirect "/users/sign-up?notification=weak_password"
       | ZodError _ =>
           Redirect "/users/sign-up?notification=invalid_credentials"
       | _ => NextError error
       end).

Definition postVerifyEmailController : Controller := fun req =>
  try_catch
    (raw ← of_res (parse_string "verify_email_token" (req_body req));
     let verify_email_token := strip_whitespace raw in
     email ← session_user_field user_email;
     u ← await (verifyEmail M email verify_email_token);
     modify_session (set_session_user (Some u));;
     ret Next)
    (fun error _ =>
       match error with
       | InvalidTokenError | ZodError _ =>
           Redirect "/users/verify-email?notification=invalid_verify_email_code"
       | _ => NextError error
       end).

Definition postSendEmailVerificationController : Controller := fun req =>
  try_catch
    (email ← session_user_field user_email;
     await (sendEmailAddressVerificationEmail M email false);;
     ret (Redirect "/users/verify-email?new_code_sent=true"))
    (fun error _ =>
       match error with
       | EmailVerifiedAlreadyError =>
           Redirect "/users/personal-information?notification=email_verified_already"
       | _ => NextError error
       end).

Definition postSendMagicLinkController : Controller := fun req =>
  try_catch
    (s ← get_session;
     await (sendSendMagicLinkEmail M (session_email s) (req_origin req));;
     ret (Redirect "/users/magic-link-sent"))
    (fun error _ =>
       match error with
       | InvalidEmailError _ =>
           Redirect "/users/start-sign-in?notification=invalid_email"
       | _ => NextError error
       end).

Definition getSignInWithMagicLinkController : Controller := fun req =>
  try_catch
    (magic_link_token ← of_res (parse_string "magic_link_token" (req_query req));
     s ← get_session;
     if negb (truthy (session_email s)) then
       ret (Render "user/sign-in-with-magic-link"
              [("csrfToken", req_csrfToken req);
               ("magicLinkToken", magic_link_token)])
     else
       ret (Render "autosubmit-form"
              [("csrfToken", req_csrfToken req);
               ("actionLabel", "Connexion...");
               ("actionPath", "/users/sign-in-with-magic-link");
               ("inputName", "magic_link_token");
               ("inputValue", magic_link_token)]))
    (fun error _ =>
       match error with
       | ZodError _ => Redirect "/users/start-sign-in?notification=invalid_magic_link"
       | _ => NextError error
       end).

Definition postSignInWithMagicLinkController : Controller := fun req =>
  try_catch
    (magic_link_token ← of_res (parse_string "magic_link_token" (req_body req));
     u ← await (loginWithMagicLink M magic_link_token);
     modify_session (set_session_user (Some u));;
     modify_session (set_session_email None);;
     ret Next)
    (fun error w =>
       match error with
       | InvalidMagicLinkError | ZodError _ =>
           if isEmpty (session_email (session w)) then
             Redirect "/users/start-sign-in?notification=invalid_magic_link"
           else
             Redirect "/users/sign-in?notification=invalid_magic_link_with_reinit"
       | _ => NextError error
       end).

Definition postResetPasswordController : Controller := fun req =>
  try_catch
    (login ← of_res (parse_email M "login" (req_body req));
     await (sendResetPasswordEmail M login (req_origin req));;
     ret (Redirect "/users/start-sign-in?notification=reset_password_email_sent"))
    (fun error _ =>
       match error with
       | ZodError _ => Redirect "/users/reset-password?notification=invalid_email"
       | _ => NextError error
       end).

Definition postChangePasswordController : Controller := fun req =>
  try_catch
    ('(reset_password_token, password) ←
       of_res (parse_string2 "reset_password_token" "password" (req_body req));
     await (changePassword M reset_password_token password);;
     ret (Redirect "/users/start-sign-in?notification=password_change_success"))
    (fun error _ =>
       if match error with InvalidTokenError => true | _ => false end
          || hasErrorFromField error "reset_password_token"
       then Redirect "/users/reset-password?notification=invalid_token"
       else if match error with WeakPasswordError => true | _ => false end
               || hasErrorFromField error "password"
       then
         let resetPasswordToken := template (req_body req !! "reset_password_token") in
         Redirect ("/users/change-password?reset_password_token="
                     +:+ resetPasswordToken +:+ "&notification=weak_password")
       else NextError error).

Definition getParamsForPostPersonalInformationsController (req : Request)
    : Res PersonalInformations :=
  let b := req_body req in
  match min1 (b !! "given_name"), min1 (b !! "family_name"),
        min1 (b !! "phone_number"), min1 (b !! "job") with
  | Some g, Some f, Some p, Some j => Ok (mkPersonalInformations g f p j)
  | g, f, p, j =>
      Throw (ZodError
               ((if g is None then ["given_name"] else [])
                ++ (if f is None then ["family_name"] else [])
                ++ (if p is None then ["phone_number"] else [])
                ++ (if j is None then ["job"] else [])))
  end.

Definition postPersonalInformationsController : Controller := fun req =>
  try_catch
    (fields ← of_res (getParamsForPostPersonalInformationsController req);
     id ← session_user_field user_id;
     u ← await (updatePersonalInformations M id fields);
     modify_session (set_session_user (Some u));;
     ret Next)
    (fun error _ =>
       match error with
       | ZodError _ =>
           Redirect "/users/personal-information?notification=invalid_personal_informations"
       | _ => NextError error
       end).

End Controllers.

(** ** The store behind the managers

    src/managers/user is not among the sources: this part follows the
    specification (sections 3, 4.1, 4.2, 4.4 and 6). *)

Inductive TokenKind := EmailVerification | MagicLink | PasswordReset.

#[global] Instance TokenKind_eq_dec : EqDecision TokenKind.
Proof. solve_decision. Defined.

Record SecurityToken := mkSecurityToken {
  kind : TokenKind;
  subjectEmail : string;
  issuedAt : nat;
  expiresAt : nat;
  consumedAt : option nat
}.

Inductive Mail := mkMail (k : TokenKind) (recipient : string) (payload : string).

Record Store := mkStore {
  users : list User;
  tokens : gmap string SecurityToken;
  now : nat;
  draws : nat;
  outbox : list Mail
}.

Definition set_users (us : list User) (st : Store) : Store :=
  mkStore us (tokens st) (now st) (draws st) (outbox st).

Definition set_tokens (ts : gmap string SecurityToken) (st : Store) : Store :=
  mkStore (users st) ts (now st) (draws st) (outbox st).


Inductive TokenFailure := TokenNotFound | TokenExpired | TokenAlreadyUsed.

(** What the specification leaves to configuration or to collaborators. *)
Record Config := mkConfig {
  isValid : string -> bool;
  suggest : string -> option string;
  hashPassword : string -> string;
  verifyPassword : string -> string -> bool;
  mint : nat -> string;
  ttl : TokenKind -> nat;
  minPasswordLength : nat;
  urlTrusted : string -> bool;
  loginSchema : option string -> option string
}.

Section SpecManagers.
Variable C : Config.

(** Modelled from the spec: UserStore [findByEmail] (section 6). *)
Definition findByEmail (email : string) (st : Store) : option User :=
  List.find (fun u => String.eqb (user_email u) email) (users st).

(** Modelled from the spec: UserStore [create] (section 6); the new record
    is unverified and carries no personal information yet. *)
Definition createUser (email : string) (hash : option string) (st : Store)
    : User * Store :=
  let u := mkUser (length (users st)) email hash None "" "" "" "" in
  (u, set_users (users st ++ [u]) st).

(** Replaces the record with the identifier of [u'] by [u']. *)
Definition replaceUser (u' : User) (st : Store) : Store :=
  set_users
    (map (fun u => if Nat.eqb (user_id u) (user_id u') then u' else u) (users st))
    st.

(** Modelled from the spec: UserStore [updatePasswordHash] (section 6). *)
Definition updatePasswordHash (u : User) (hash : string) (st : Store)
    : User * Store :=
  let u' := mkUser (user_id u) (user_email u) (Some hash)
              (user_email_verified_at u) (user_given_name u)
              (user_family_name u) (user_phone_number u) (user_job u) in
  (u', replaceUser u' st).

(** Modelled from the spec: UserStore [markEmailVerified] (section 6). *)
Definition markEmailVerified (u : User) (st : Store) : User * Store :=
  let u' := mkUser (user_id u) (user_email u) (user_encrypted_password u)
              (Some (now st)) (user_given_name u)
              (user_family_name u) (user_phone_number u) (user_job u) in
  (u', replaceUser u' st).

(** Modelled from the spec: UserStore [updateFields] (section 6). *)
Definition updateFields (u : User) (f : PersonalInformations) (st : Store)
    : User * Store :=
  let u' := mkUser (user_id u) (user_email u) (user_encrypted_password u)
              (user_email_verified_at u) (given_name f)
              (family_name f) (phone_number f) (job f) in
  (u', replaceUser u' st).

(** Modelled from the spec: TokenIssuer [issue] (section 4.1): a fresh
    opaque identifier, [issuedAt = now], [expiresAt = now + ttl]. *)
Definition issue (k : TokenKind) (subject : string) (st : Store)
    : string * Store :=
  let key := mint C (draws st) in
  let t := mkSecurityToken k subject (now st) (now st + ttl C k) None in
  (key, mkStore (users st) (<[key := t]> (tokens st)) (now st)
          (S (draws st)) (outbox st)).

(** Modelled from the spec: TokenIssuer [validate] (section 4.1): a pure
    lookup and state check.  A token is valid iff [consumedAt] is unset and
    the current time is before [expiresAt]; an expired token is reported
    invalid whatever its consumption state (section 8).  The store is keyed
    by the opaque identifier, and a token received from user input is
    compared after all whitespace has been stripped from it (section 4.1,
    normalization). *)
Definition validate (k : TokenKind) (token : string) (st : Store)
    : SecurityToken + TokenFailure :=
  match tokens st !! strip_whitespace token with
  | None => inr TokenNotFound
  | Some t =>
      if negb (bool_decide (kind t = k)) then inr TokenNotFound
      else if negb (Nat.ltb (now st) (expiresAt t)) then inr TokenExpired
      else if consumedAt t is Some _ then inr TokenAlreadyUsed
      else inl t
  end.

(** The record of the token, found under its normalised form, is marked. *)
Definition markConsumed (token : string) (t : SecurityToken) (st : Store) : Store :=
  set_tokens
    (<[strip_whitespace token :=
         mkSecurityToken (kind t) (subjectEmail t) (issuedAt t)
           (expiresAt t) (Some (now st))]> (tokens st))
    st.

(** Modelled from the spec: TokenIssuer [consume] (section 4.1): [validate],
    then mark [consumedAt = now]. *)
Definition consume (k : TokenKind) (token : string) (st : Store)
    : (SecurityToken + TokenFailure) * Store :=
  match validate k token st with
  | inl t => (inl t, markConsumed token t st)
  | inr f => (inr f, st)
  end.

(** Modelled from the spec: MailDispatcher [send] (section 6), best effort:
    the message is queued and nothing is reported back. *)
Definition send (k : TokenKind) (recipient payload : string) (st : Store) : Store :=
  mkStore (users st) (tokens st) (now st) (draws st)
    (outbox st ++ [mkMail k recipient payload]).

(** Modelled from the spec: CredentialGuard [checkStrength] (section 4.2):
    rejects passwords shorter than the configured minimum.  The length taken
    is [String.length]: the number of characters of an ASCII password (a
    character beyond ASCII counts once per byte of its encoding). *)
Definition checkStrength (password : string) : bool :=
  Nat.leb (minPasswordLength C) (String.length password).

(** Modelled from the spec: StartLogin (section 4.4): format validation,
    then the lookup that routes to sign-in or sign-up. *)
Definition spec_startLogin (email : string) (st : Store)
    : Res (string * bool) * Store :=
  if isValid C email
  then (Ok (email, bool_decide (is_Some (findByEmail email st))), st)
  else (Throw (InvalidEmailError (suggest C email)), st).

(** Modelled from the spec: PasswordLogin (section 4.4): the pending email
    names the record whose hash the password is verified against. *)
Definition spec_login (email : option string) (password : string) (st : Store)
    : Res User * Store :=
  match email with
  | None => (Throw InvalidCredentialsError, st)
  | Some e =>
      match findByEmail e st with
      | Some u =>
          match user_encrypted_password u with
          | Some h =>
              if verifyPassword C password h then (Ok u, st)
              else (Throw InvalidCredentialsError, st)
          | None => (Throw InvalidCredentialsError, st)
          end
      | None => (Throw InvalidCredentialsError, st)
      end
  end.

(** Modelled from the spec: Signup (section 4.4): [EmailUnavailable] if the
    email is taken, [WeakPassword] if the password is too short, else the
    record is created with the hash of the password. *)
Definition spec_signup (email : option string) (password : string) (st : Store)
    : Res User * Store :=
  match email with
  | None => (Throw (InvalidEmailError None), st)
  | Some e =>
      if bool_decide (is_Some (findByEmail e st))
      then (Throw EmailUnavailableError, st)
      else if negb (checkStrength password) then (Throw WeakPasswordError, st)
      else let (u, st') := createUser e (Some (hashPassword C password)) st in
           (Ok u, st')
  end.

(** Modelled from the spec: RequestMagicLink (section 4.4): needs the pending
    email (else [InvalidEmail]); issues a token for that email and hands the
    message to the dispatcher, whether or not a record exists. *)
Definition spec_sendSendMagicLinkEmail (email origin : option string) (st : Store)
    : Res unit * Store :=
  if truthy email then
    let (key, st') := issue MagicLink (template email) st in
    (Ok tt, send MagicLink (template email) key st')
  else (Throw (InvalidEmailError None), st).

(** Modelled from the spec: ConsumeMagicLink (section 4.4): the token is
    consumed once it resolves to a record; any failure is
    [InvalidMagicLinkError] and leaves the store as it was. *)
Definition spec_loginWithMagicLink (token : string) (st : Store)
    : Res User * Store :=
  match validate MagicLink token st with
  | inl t =>
      match findByEmail (subjectEmail t) st with
      | Some u => (Ok u, markConsumed token t st)
      | None => (Throw InvalidMagicLinkError, st)
      end
  | inr _ => (Throw InvalidMagicLinkError, st)
  end.

(** Modelled from the spec: RequestEmailVerification (section 4.4):
    [EmailVerifiedAlreadyError] if already verified, before any token is
    minted. *)
Definition spec_sendEmailAddressVerificationEmail (email : string)
    (checkBeforeSend : bool) (st : Store) : Res bool * Store :=
  match findByEmail email st with
  | Some u =>
      if user_email_verified_at u is Some _
      then (Throw EmailVerifiedAlreadyError, st)
      else let (key, st') := issue EmailVerification email st in
           (Ok true, send EmailVerification email key st')
  | None => (Throw (OtherError "user not found"), st)
  end.

(** Modelled from the spec: ConsumeEmailVerification (section 4.4): consume
    the code issued to that user, then set [emailVerifiedAt = now]. *)
Definition spec_verifyEmail (email code : string) (st : Store)
    : Res User * Store :=
  match validate EmailVerification code st, findByEmail email st with
  | inl t, Some u =>
      if String.eqb (subjectEmail t) email
      then let (u', st') := markEmailVerified u (markConsumed code t st) in
           (Ok u', st')
      else (Throw InvalidTokenError, st)
  | _, _ => (Throw InvalidTokenError, st)
  end.

(** Modelled from the spec: RequestPasswordReset (section 4.4): issues a
    token for the email and always reports success. *)
Definition spec_sendResetPasswordEmail (email : string) (origin : option string)
    (st : Store) : Res unit * Store :=
  let (key, st') := issue PasswordReset email st in
  (Ok tt, send PasswordReset email key st').

(** Modelled from the spec: ConsumePasswordReset (section 4.4): the strength
    of the new password is checked first; the token is consumed only once
    the password is accepted, and the stored hash is updated. *)
Definition spec_changePassword (token password : string) (st : Store)
    : Res unit * Store :=
  if negb (checkStrength password) then (Throw WeakPasswordError, st)
  else
    match validate PasswordReset token st with
    | inl t =>
        match findByEmail (subjectEmail t) st with
        | Some u =>
            let (_, st') :=
              updatePasswordHash u (hashPassword C password)
                (markConsumed token t st) in
            (Ok tt, st')
        | None => (Throw InvalidTokenError, st)
        end
    | inr _ => (Throw InvalidTokenError, st)
    end.

(** Modelled from the spec: UpdatePersonalInformation (section 4.4). *)
Definition spec_updatePersonalInformations (id : nat) (f : PersonalInformations)
    (st : Store) : Res User * Store :=
  match List.find (fun u => Nat.eqb (user_id u) id) (users st) with
  | Some u => let (u', st') := updateFields u f st in (Ok u', st')
  | None => (Throw (OtherError "user not found"), st)
  end.

Definition specManagers : Managers Store :=
  mkManagers Store
    spec_startLogin spec_login spec_signup spec_sendSendMagicLinkEmail
    spec_loginWithMagicLink spec_sendEmailAddressVerificationEmail
    spec_verifyEmail spec_sendResetPasswordEmail spec_changePassword
    spec_updatePersonalInformations (urlTrusted C) (loginSchema C).

End SpecManagers.

(** ** Actions of the flow (section 4.4) and their handlers *)

Inductive Action :=
| IssueSessionOrRedirect
| StartLogin
| PasswordLogin
| Signup
| RequestMagicLink
| OpenMagicLink
| ConsumeMagicLink
| RequestEmailVerification
| ConsumeEmailVerification
| RequestPasswordReset
| ConsumePasswordReset
| UpdatePersonalInformation.

Definition handle {DB} (M : Managers DB) (a : Action) : Controller :=
  match a with
  | IssueSessionOrRedirect => issueSessionOrRedirectController M
  | StartLogin => postStartSignInController M
  | PasswordLogin => postSignInMiddleware M
  | Signup => postSignUpController M
  | RequestMagicLink => postSendMagicLinkController M
  | OpenMagicLink => getSignInWithMagicLinkController
  | ConsumeMagicLink => postSignInWithMagicLinkController M
  | RequestEmailVerification => postSendEmailVerificationController M
  | ConsumeEmailVerification => postVerifyEmailController M
  | RequestPasswordReset => postResetPasswordController M
  | ConsumePasswordReset => postChangePasswordController M
  | UpdatePersonalInformation => postPersonalInformationsController M
  end.

(** The response each handler gives at the end of its [try] block; every
    other response is produced by its [catch] clause. *)
Definition succeeded (a : Action) (r : Response) : bool :=
  match a, r with
  | IssueSessionOrRedirect, Redirect _ => true
  | StartLogin, Redirect url =>
      String.eqb url "/users/sign-in" || String.eqb url "/users/sign-up"
  | (PasswordLogin | Signup | ConsumeMagicLink | ConsumeEmailVerification
     | UpdatePersonalInformation), Next => true
  | RequestMagicLink, Redirect url => String.eqb url "/users/magic-link-sent"
  | OpenMagicLink, Render _ _ => true
  | RequestEmailVerification, Redirect url =>
      String.eqb url "/users/verify-email?new_code_sent=true"
  | RequestPasswordReset, Redirect url =>
      String.eqb url "/users/start-sign-in?notification=reset_password_email_sent"
  | ConsumePasswordReset, Redirect url =>
      String.eqb url "/users/start-sign-in?notification=password_change_success"
  | _, _ => false
  end.

(** The transitions that authenticate the session. *)
Definition authenticating (a : Action) : bool :=
  match a with
  | PasswordLogin | Signup | ConsumeMagicLink => true
  | _ => false
  end.

(** The request in which one property of the body is replaced. *)
Definition with_body (f v : string) (req : Request) : Request :=
  mkRequest (<[f := v]> (req_body req)) (req_query req) (req_origin req)
    (req_csrfToken req).

(** ** A concrete configuration and store, for the examples *)

Definition exampleConfig : Config :=
  mkConfig
    (fun e => bool_decide (is_Some (String.index 0 "@" e)))
    (fun e => if String.eqb e "alice.example.com"
              then Some "alice@example.com" else None)
    (fun p => "hashed:" +:+ p)
    (fun p h => String.eqb ("hashed:" +:+ p) h)
    (fun n => "token-" +:+ pretty n)
    (fun k => match k with EmailVerification => 60 | _ => 3600 end)
    10
    (fun u => String.prefix "/" u)
    min1.

Definition alice : User :=
  mkUser 0 "alice@example.com" (Some "hashed:correct horse battery") None
    "Alice" "Martin" "0123456789" "engineer".

Definition exampleStore : Store :=
  mkStore [alice]
    (<["ml-4f9a" := mkSecurityToken MagicLink "alice@example.com" 0 3600 None]>
       (<["rp-77c1" := mkSecurityToken PasswordReset "alice@example.com" 0 3600 None]>
          (<["0123456789" := mkSecurityToken EmailVerification "alice@example.com" 0 60 None]>
             ∅)))
    10 3 [].

Definition anonymousSession : Session := mkSession None None None None.

Definition pendingSession : Session :=
  mkSession (Some "alice@example.com") None None None.

Definition aliceSession : Session := mkSession None (Some alice) None None.

Definition interactionSession : Session :=
  mkSession None (Some alice) (Some "Xq3") (Some "/dashboard").

Definition trustedRefererSession : Session :=
  mkSession None (Some alice) None (Some "/dashboard").

Definition untrustedRefererSession : Session :=
  mkSession None (Some alice) None (Some "https://elsewhere.example/").

Definition emptyStore : Store := mkStore [] ∅ 10 0 [].

Definition form (fields : list (string * string)) : Request :=
  mkRequest (list_to_map fields) ∅ None "csrf".

Definition link (fields : list (string * string)) : Request :=
  mkRequest ∅ (list_to_map fields) None "csrf".

(** ** Notification messages

    The table of the labels the redirects carry in their [notification]
    parameter (the second part of src/src/routers/api.ts).  The descriptions
    are kept as the bytes of the source text. *)

Record NotificationMessage := mkNotificationMessage {
  type : string;
  description : string
}.

Definition notificationMessages : gmap string NotificationMessage :=
  list_to_map [
    ("invalid_credentials",
     mkNotificationMessage "error"
       "Mot de passe incorrect.");
    ("invalid_email",
     mkNotificationMessage "error"
       "Adresse email invalide.");
    ("invalid_siret",
     mkNotificationMessage "error"
       "SIRET invalide.");
    ("insee_timeout",
     mkNotificationMessage "error"
       "Les données INSEE de l’organisation, nécessaires pour valider le rattachement, sont indisponibles pour le moment. Merci de réessayer ultérieurement.");
    ("invalid_token",
     mkNotificationMessage "warning"
       "Le lien que vous avez utilisé est invalide ou expiré.

Veuillez cliquer sur « Réinitialiser » pour recevoir un nouveau lien");
    ("invalid_magic_link",
     mkNotificationMessage "warning"
       "Le lien que vous avez utilisé est invalide ou expiré.");
    ("invalid_magic_link_with_reinit",
     mkNotificationMessage "warning"
       "Le lien que vous avez utilisé est invalide ou expiré.

Cliquez sur le bouton « Envoyer le lien » pour obtenir un nouveau lien.");
    ("password_change_success",
     mkNotificationMessage "success"
       "Votre mot de passe a été mis à jour.

Veuillez vous connecter avec votre nouveau mot de passe.");
    ("reset_password_email_sent",
     mkNotificationMessage "info"
       "Vous allez recevoir un lien de réinitialisation par e-mail.");
    ("user_in_organization_already",
     mkNotificationMessage "error"
       "Vous appartenez déjà à cette organisation.");
    ("email_unavailable",
     mkNotificationMessage "warning"
       "Un compte existe déjà avec cet email.

Si vous avez oublié votre mot de passe cliquez sur « Mot de passe oublié ? ».");
    ("email_verified_already",
     mkNotificationMessage "error"
       "Votre email a déjà été vérifié.");
    ("invalid_verify_email_code",
     mkNotificationMessage "error"
       "Le code de vérification que vous avez utilisé est invalide ou expiré.");
    ("email_verification_renewal",
     mkNotificationMessage "info"
       "Pour garantir la sécurité de votre compte, votre adresse email doit être vérifiée régulièrement.");
    ("weak_password",
     mkNotificationMessage "error"
       "Votre mot de passe est trop court. Merci de choisir un mot de passe d’au moins 10 caractères.");
    ("invalid_personal_informations",
     mkNotificationMessage "error"
       "Le format des informations personnelles est invalide.");
    ("quit_organization_success",
     mkNotificationMessage "success"
       "Vous ne faites désormais plus partie de cette organisation.");
    ("logout_success",
     mkNotificationMessage "info"
       "Vous êtes maintenant déconnecté.");
    ("personal_information_update_success",
     mkNotificationMessage "success"
       "Vos informations ont été mises à jour")
  ].

(** The characters that delimit the parts of a URL and of its query. *)
Definition is_url_delimiter (c : ascii) : bool :=
  Ascii.eqb c "?" || Ascii.eqb c "#" || Ascii.eqb c "&" || Ascii.eqb c "=".

Fixpoint has_url_delimiter (s : string) : bool :=
  match s with
  | EmptyString => false
  | String c r => is_url_delimiter c || has_url_delimiter r
  end.

(** The query of the URL starts with the parameter [name=value]: the URL is
    a path without delimiter, then [?name=value], then its end or [&] and
    further parameters. *)
Definition first_query_parameter (url name value : string) : Prop :=
  exists path rest,
    url = path +:+ "?" +:+ name +:+ "=" +:+ value +:+ rest
    /\ has_url_delimiter path = false
    /\ has_url_delimiter name = false
    /\ has_url_delimiter value = false
    /\ (rest = "" \/ exists r, rest = "&" +:+ r).

(** ** The pages

    The handlers of the GET routes render a view.  The helpers that read the
    notification of the request (src/services/get-notifications-from-request)
    and [optionalBooleanSchema] (src/services/custom-zod-schemas) are
    imported by the controllers: they are parameters here, and may throw. *)

Record Views (N : Type) := mkViews {
  getNotificationsFromRequest : Request -> Session -> Res N;
  getNotificationLabelFromRequest : Request -> Session -> Res (option string);
  optionalBooleanSchema : option string -> option (option bool)
}.
Arguments getNotificationsFromRequest {N} _ _ _.
Arguments getNotificationLabelFromRequest {N} _ _ _.
Arguments optionalBooleanSchema {N} _ _.

(** The values handed to a view. *)
Inductive Local (N : Type) :=
| LUndefined
| LString (s : string)
| LBoolean (b : bool)
| LNotifications (n : N).
Arguments LUndefined {N}.
Arguments LString {N} s.
Arguments LBoolean {N} b.
Arguments LNotifications {N} n.

Definition local_string {N} (v : option string) : Local N :=
  match v with Some s => LString s | None => LUndefined end.

Definition local_boolean {N} (v : option bool) : Local N :=
  match v with Some b => LBoolean b | None => LUndefined end.

Inductive PageResponse (N : Type) :=
| PageRender (view : string) (locals : list (string * Local N))
| PageRedirect (url : string)
| PageNextError (e : Error).
Arguments PageRender {N} view locals.
Arguments PageRedirect {N} url.
Arguments PageNextError {N} e.

Definition try_catch_page {DB N} (body : Ctl DB (PageResponse N))
    (handler : Error -> World DB -> PageResponse N)
    : World DB -> PageResponse N * World DB :=
  fun w =>
    match body w with
    | (Ok r, w') => (r, w')
    | (Throw e, w') => (handler e w', w')
    end.

(** [z.string().min(1).optional()] on one property. *)
Definition optional_min1 (v : option string) : option (option string) :=
  match v with
  | None => Some None
  | Some s => if is_empty_string s then None else Some (Some s)
  end.

Definition parse_optional_string2 (f g : string) (obj : gmap string string)
    : Res (option string * option string) :=
  match optional_min1 (obj !! f), optional_min1 (obj !! g) with
  | Some a, Some b => Ok (a, b)
  | None, Some _ => Throw (ZodError [f])
  | Some _, None => Throw (ZodError [g])
  | None, None => Throw (ZodError [f; g])
  end.

(** [z.object({ f: emailSchema().optional() })] *)
Definition parse_optional_email {DB} (M : Managers DB) (f : string)
    (obj : gmap string string) : Res (option string) :=
  match obj !! f with
  | None => Ok None
  | Some v =>
      match emailSchema M (Some v) with
      | Some e => Ok (Some e)
      | None => Throw (ZodError [f])
      end
  end.

Section Pages.
Context {DB N : Type} (M : Managers DB) (V : Views N).

Definition PageController : Type :=
  Request -> World DB -> PageResponse N * World DB.

Definition notifications_of (req : Request) : Ctl DB (Local N) :=
  s ← get_session;
  n ← of_res (getNotificationsFromRequest V req s);
  mret (LNotifications n).

Definition getStartSignInController : PageController := fun req =>
  try_catch_page
    ('(login_hint, didYouMean) ←
       of_res (parse_optional_string2 "login_hint" "did_you_mean" (req_query req));
     s ← get_session;
     let loginHint := if truthy login_hint then login_hint else session_email s in
     label ← of_res (getNotificationLabelFromRequest V req s);
     let hasEmailError := bool_decide (label = Some "invalid_email") in
     notifications ←
       (if negb hasEmailError then notifications_of req
        else mret (LBoolean false));
     mret (PageRender "user/start-sign-in"
             [("notifications", notifications);
              ("hasEmailError", LBoolean hasEmailError);
              ("didYouMean", local_string didYouMean);
              ("loginHint", local_string loginHint);
              ("csrfToken", LString (req_csrfToken req))]))
    (fun error _ => PageNextError error).

Definition getSignInController : PageController := fun req =>
  try_catch_page
    (notifications ← notifications_of req;
     mret (PageRender "user/sign-in"
             [("notifications", notifications);
              ("csrfToken", LString (req_csrfToken req))]))
    (fun error _ => PageNextError error).

Definition getSignUpController : PageController := fun req =>
  try_catch_page
    (login_hint ← of_res (parse_optional_email M "login_hint" (req_query req));
     notifications ← notifications_of req;
     mret (PageRender "user/sign-up"
             [("notifications", notifications);
              ("csrfToken", LString (req_csrfToken req));
              ("loginHint", local_string login_hint)]))
    (fun error _ => PageNextError error).

Definition getVerifyEmailController : PageController := fun req =>
  try_catch_page
    (new_code_sent ←
       of_res (match optionalBooleanSchema V (req_query req !! "new_code_sent") with
               | Some b => Ok b
               | None => Throw (ZodError ["new_code_sent"])
               end);
     email ← session_user_field user_email;
     codeSent ← await (sendEmailAddressVerificationEmail M email true);
     notifications ← notifications_of req;
     email' ← session_user_field user_email;
     mret (PageRender "user/verify-email"
             [("notifications", notifications);
              ("email", LString email');
              ("csrfToken", LString (req_csrfToken req));
              ("newCodeSent", local_boolean new_code_sent);
              ("codeSent", LBoolean codeSent)]))
    (fun error _ =>
       match error with
       | EmailVerifiedAlreadyError =>
           PageRedirect
             "/users/personal-information?notification=email_verified_already"
       | _ => PageNextError error
       end).

Definition getMagicLinkSentController : PageController := fun req =>
  try_catch_page
    (s ← get_session;
     mret (PageRender "user/magic-link-sent"
             [("email", local_string (session_email s))]))
    (fun error _ => PageNextError error).

Definition getResetPasswordController : PageController := fun req =>
  try_catch_page
    (notifications ← notifications_of req;
     s ← get_session;
     let loginHint :=
       if truthy (session_email s) then session_email s
       else match session_user s with
            | Some u => Some (user_email u)
            | None => None
            end in
     mret (PageRender "user/reset-password"
             [("notifications", notifications);
              ("loginHint", local_string loginHint);
              ("csrfToken", LString (req_csrfToken req))]))
    (fun error _ => PageNextError error).

Definition getChangePasswordController : PageController := fun req =>
  try_catch_page
    (reset_password_token ←
       of_res (parse_string "reset_password_token" (req_query req));
     notifications ← notifications_of req;
     mret (PageRender "user/change-password"
             [("resetPasswordToken", LString reset_password_token);
              ("notifications", notifications);
              ("csrfToken", LString (req_csrfToken req))]))
    (fun error _ => PageNextError error).

Definition getPersonalInformationsController : PageController := fun req =>
  try_catch_page
    (given_name ← session_user_field user_given_name;
     family_name ← session_user_field user_family_name;
     phone_number ← session_user_field user_phone_number;
     job ← session_user_field user_job;
     notifications ← notifications_of req;
     mret (PageRender "user/personal-information"
             [("given_name", LString given_name);
              ("family_name", LString family_name);
              ("phone_number", LString phone_number);
              ("job", LString job);
              ("notifications", notifications);
              ("csrfToken", LString (req_csrfToken req))]))
    (fun error _ => PageNextError error).

Definition getWelcomeController : PageController := fun req w =>
  (PageRender "user/welcome" [("csrfToken", LString (req_csrfToken req))], w).

End Pages.

Inductive Page :=
| StartSignInPage
| SignInPage
| SignUpPage
| VerifyEmailPage
| MagicLinkSentPage
| ResetPasswordPage
| ChangePasswordPage
| PersonalInformationsPage
| WelcomePage.

Definition show {DB N} (M : Managers DB) (V : Views N) (p : Page)
    : PageController :=
  match p with
  | StartSignInPage => getStartSignInController V
  | SignInPage => getSignInController V
  | SignUpPage => getSignUpController M V
  | VerifyEmailPage => getVerifyEmailController M V
  | MagicLinkSentPage => getMagicLinkSentController
  | ResetPasswordPage => getResetPasswordController V
  | ChangePasswordPage => getChangePasswordController V
  | PersonalInformationsPage => getPersonalInformationsController V
  | WelcomePage => getWelcomeController
  end.

(** Views for the examples: the notification is read from the query. *)
Definition exampleViews : Views (list string) :=
  mkViews (list string)
    (fun req _ =>
       Ok (match req_query req !! "notification" with
           | Some l => [l]
           | None => []
           end))
    (fun req _ => Ok (req_query req !! "notification"))
    (fun v =>
       match v with
       | None => Some None
       | Some s =>
           if String.eqb s "true" then Some (Some true)
           else if String.eqb s "false" then Some (Some false)
           else None
       end).

(** A store in which the verification code on record is the empty string,
    and one in which the email of the user is verified already. *)
Definition blankCodeStore : Store :=
  mkStore [alice]
    (<["" := mkSecurityToken EmailVerification "alice@example.com" 0 60 None]> ∅)
    10 1 [].

Definition verifiedAlice : User :=
  mkUser 0 "alice@example.com" (Some "hashed:correct horse battery") (Some 5)
    "Alice" "Martin" "0123456789" "engineer".

Definition verifiedStore : Store := mkStore [verifiedAlice] ∅ 10 0 [].

Definition verifiedSession : Session :=
  mkSession None (Some verifiedAlice) None None.

(** * Properties *)

(** ** Values and schemas *)

Lemma truthy_Some (v : option string) :
  truthy v = true <-> exists s, v = Some s /\ s <> "".
Proof.
  destruct v as [[|c r]|]; simpl; split; intros H;
    try discriminate; try reflexivity.
  - destruct H as (s & [= <-] & Hs). congruence.
  - eexists. split; [reflexivity | discriminate].
  - destruct H as (s & [=] & _).
Qed.

Lemma truthy_template (v : option string) (s : string) :
  v = Some s -> template v = s.
Proof. intros ->. reflexivity. Qed.

Lemma min1_Some (v : option string) (s : string) :
  min1 v = Some s <-> v = Some s /\ s <> "".
Proof.
  destruct v as [[|c r]|]; simpl; split; intros H; try discriminate.
  - destruct H as [[= <-] H]. congruence.
  - injection H as <-. split; [reflexivity | discriminate].
  - destruct H as [[= <-] _]. reflexivity.
  - destruct H as [[=] _].
Qed.

Lemma min1_nonempty (s : string) : s <> "" -> min1 (Some s) = Some s.
Proof. intros H. apply min1_Some. auto. Qed.

Lemma append_String_r (a : string) (x : ascii) (b : string) :
  (a +:+ String x EmptyString) +:+ b = a +:+ String x b.
Proof.
  induction a as [|y a IH]; [reflexivity|].
  change (String y ((a +:+ String x EmptyString) +:+ b)
          = String y (a +:+ String x b)).
  f_equal. exact IH.
Qed.

Lemma append_nil_r_string (s : string) : s +:+ EmptyString = s.
Proof.
  induction s as [|c r IH]; [reflexivity|].
  change (String c (r +:+ EmptyString) = String c r). f_equal. exact IH.
Qed.

Lemma complete_partial (u : string) : complete u -> partial u.
Proof. destruct u; simpl; [tauto | lia]. Qed.

Lemma length_append_byte (v : string) (x : ascii) :
  String.length (v +:+ String x EmptyString) = S (String.length v).
Proof.
  induction v as [|y v IH]; [reflexivity|].
  change (S (String.length (v +:+ String x EmptyString)) = S (S (String.length v))).
  rewrite IH. reflexivity.
Qed.

Lemma utf8_chars_from_chunked (s : string) :
  forall k c v, String.length v + k = utf8_width c - 1 ->
    chunked (utf8_chars_from k (String c v) s).
Proof.
  induction s as [|x r IH]; intros k c v H; simpl.
  - apply chunked_last. simpl. lia.
  - destruct k as [|k].
    + apply chunked_cons; [simpl; lia|]. apply IH. simpl. lia.
    + change (String c v +:+ String x EmptyString)
        with (String c (v +:+ String x EmptyString)).
      apply IH. rewrite length_append_byte. lia.
Qed.

Lemma utf8_chars_chunked (s : string) : chunked (utf8_chars s).
Proof.
  destruct s as [|c r]; [constructor|].
  apply utf8_chars_from_chunked. simpl. lia.
Qed.

Lemma chunked_filter (P : string -> Prop) `{!forall u, Decision (P u)}
    (l : list string) :
  chunked l -> chunked (filter P l).
Proof.
  induction 1 as [|u Hu|u l Hu Hl IH].
  - constructor.
  - rewrite filter_cons. destruct (decide (P u)); [|constructor].
    rewrite filter_nil. constructor. exact Hu.
  - rewrite filter_cons. destruct (decide (P u)); [|exact IH].
    destruct (filter P l) as [|u' l'] eqn:E.
    + apply chunked_last, complete_partial, Hu.
    + apply chunked_cons; assumption.
Qed.

Lemma utf8_chars_from_short (v : string) :
  forall k cur, String.length v <= k ->
    utf8_chars_from k cur v = [cur +:+ v].
Proof.
  induction v as [|x v IH]; intros k cur H; simpl.
  - rewrite append_nil_r_string. reflexivity.
  - destruct k as [|k]; [simpl in H; lia|].
    rewrite IH by (simpl in H; lia). rewrite append_String_r. reflexivity.
Qed.

Lemma utf8_chars_from_app (v : string) :
  forall cur rest,
    utf8_chars_from (String.length v) cur (v +:+ rest)
    = (cur +:+ v) :: utf8_chars rest.
Proof.
  induction v as [|x v IH]; intros cur rest.
  - rewrite append_nil_r_string.
    change (EmptyString +:+ rest) with rest.
    destruct rest as [|c r]; reflexivity.
  - change (String x v +:+ rest) with (String x (v +:+ rest)).
    simpl. rewrite IH, append_String_r. reflexivity.
Qed.

Lemma utf8_chars_join (l : list string) :
  chunked l -> utf8_chars (join l) = l.
Proof.
  induction 1 as [|u Hu|u l Hu Hl IH].
  - reflexivity.
  - simpl. rewrite append_nil_r_string.
    destruct u as [|c v]; [destruct Hu|]. simpl in *.
    rewrite utf8_chars_from_short by exact Hu. reflexivity.
  - destruct u as [|c v]; [destruct Hu|].
    change (join (String c v :: l)) with (String c (v +:+ join l)).
    simpl in Hu. unfold utf8_chars. rewrite <- Hu.
    rewrite utf8_chars_from_app, IH. reflexivity.
Qed.

Lemma join_utf8_chars_from (s : string) :
  forall k cur, join (utf8_chars_from k cur s) = cur +:+ s.
Proof.
  induction s as [|x r IH]; intros k cur; simpl.
  - reflexivity.
  - destruct k as [|k].
    + simpl. rewrite IH. reflexivity.
    + rewrite IH, append_String_r. reflexivity.
Qed.

Lemma join_utf8_chars (s : string) : join (utf8_chars s) = s.
Proof.
  destruct s as [|c r]; [reflexivity|].
  unfold utf8_chars. rewrite join_utf8_chars_from. reflexivity.
Qed.

Lemma utf8_chars_strip_whitespace (s : string) :
  utf8_chars (strip_whitespace s)
  = filter (fun u => is_js_space u = false) (utf8_chars s).
Proof.
  unfold strip_whitespace.
  apply utf8_chars_join, chunked_filter, utf8_chars_chunked.
Qed.

Lemma strip_whitespace_clean (s : string) :
  has_whitespace (strip_whitespace s) = false.
Proof.
  unfold has_whitespace. rewrite utf8_chars_strip_whitespace.
  induction (utf8_chars s) as [|u l IH]; [reflexivity|].
  rewrite filter_cons. destruct (decide (is_js_space u = false)) as [E|E].
  - simpl. rewrite E. exact IH.
  - exact IH.
Qed.

Lemma strip_whitespace_id (s : string) :
  has_whitespace s = false -> strip_whitespace s = s.
Proof.
  unfold has_whitespace, strip_whitespace. intros H.
  rewrite <- (join_utf8_chars s) at 2. f_equal.
  induction (utf8_chars s) as [|u l IH]; [reflexivity|].
  simpl in H. apply orb_false_elim in H as [Hu Hl].
  rewrite filter_cons. destruct (decide (is_js_space u = false)); [|contradiction].
  f_equal. apply IH, Hl.
Qed.

Lemma strip_whitespace_idem (s : string) :
  strip_whitespace (strip_whitespace s) = strip_whitespace s.
Proof. apply strip_whitespace_id, strip_whitespace_clean. Qed.

Lemma strip_whitespace_nonempty (s : string) :
  strip_whitespace s <> "" -> s <> "".
Proof. intros H ->. apply H. reflexivity. Qed.

(** ** Unfolding a handler *)

Ltac ctl_unfold :=
  unfold try_catch, mbind, Ctl_bind, ret, mret, Ctl_ret, of_res, await,
    get_session, modify_session, session_user_field, throw,
    parse_string, parse_string2, parse_email.

Ltac ctl_cases :=
  repeat match goal with
         | |- context [min1 ?x] => destruct (min1 x) eqn:?; simpl
         | |- context [emailSchema ?M ?x] =>
             destruct (emailSchema M x) eqn:?; simpl
         | |- context [session_user ?s] => destruct (session_user s) eqn:?; simpl
         | |- context [getParamsForPostPersonalInformationsController ?r] =>
             destruct (getParamsForPostPersonalInformationsController r)
               as [?|[]] eqn:?; simpl
         | |- context [match ?c with pair _ _ => _ end] =>
             lazymatch type of c with
             | (Res _ * World _)%type => fail
             | (Res _ * _)%type => destruct c as [[?|[]] ?] eqn:?; simpl
             end
         | |- context [match ?c with pair _ _ => _ end] =>
             is_var c; destruct c; simpl
         | |- context [if ?b then _ else _] => destruct b eqn:?; simpl
         end.

(** ** Redirect after authentication *)

(** C10: after authentication the redirect target is chosen in a fixed
    order.  A pending interaction id wins and leaves the session as it is;
    otherwise a stored referer that [isUrlTrusted] accepts is the target and
    is removed from the session in the same step; otherwise, in particular
    for a referer that is not trusted, the target is ['/'] and the session,
    referer included, is left as it is. *)
Theorem issueSessionOrRedirect_order {DB} (M : Managers DB) (req : Request)
    (w : World DB) :
  (forall i, session_interactionId (session w) = Some i -> i <> "" ->
     issueSessionOrRedirectController M req w
     = (Redirect ("/interaction/" +:+ i +:+ "/login"), w))
  /\ (forall r, truthy (session_interactionId (session w)) = false ->
        session_referer (session w) = Some r -> r <> "" ->
        isUrlTrusted M r = true ->
        issueSessionOrRedirectController M req w
        = (Redirect r, mkWorld (set_session_referer None (session w)) (db w)))
  /\ (forall r, truthy (session_interactionId (session w)) = false ->
        session_referer (session w) = Some r ->
        isUrlTrusted M r = false ->
        issueSessionOrRedirectController M req w = (Redirect "/", w))
  /\ (truthy (session_interactionId (session w)) = false ->
      truthy (session_referer (session w)) = false ->
      issueSessionOrRedirectController M req w = (Redirect "/", w)).
Proof.
  unfold issueSessionOrRedirectController. ctl_unfold.
  repeat split.
  - intros i Hi Hne.
    assert (Ht : truthy (session_interactionId (session w)) = true)
      by (apply truthy_Some; eauto).
    rewrite Ht, Hi. reflexivity.
  - intros r Hi Hr Hne Htr.
    assert (Ht : truthy (session_referer (session w)) = true)
      by (apply truthy_Some; eauto).
    rewrite Hi, Ht, Hr. simpl. rewrite Htr. reflexivity.
  - intros r Hi Hr Htr.
    rewrite Hi, Hr. simpl. rewrite Htr, andb_false_r. reflexivity.
  - intros Hi Hr. rewrite Hi, Hr. reflexivity.
Qed.

(** ** Payload shape *)

(** C9: an empty password submitted to the password login or to the signup
    fails the payload-shape check: whatever the managers are, none of them
    runs, the world is left as it was, and the outcome is
    [invalid_credentials] in both cases, not [weak_password]. *)
Theorem empty_password_invalid_credentials {DB} (M : Managers DB)
    (req : Request) (w : World DB) :
  req_body req !! "password" = Some "" ->
  postSignInMiddleware M req w
  = (Redirect "/users/sign-in?notification=invalid_credentials", w)
  /\ postSignUpController M req w
     = (Redirect "/users/sign-up?notification=invalid_credentials", w)
  /\ fst (postSignUpController M req w)
     <> Redirect "/users/sign-up?notification=weak_password".
Proof.
  intros H.
  unfold postSignInMiddleware, postSignUpController. ctl_unfold.
  rewrite H. simpl. repeat split. discriminate.
Qed.

(** ** Anti-automation guard of the magic link *)

(** C2: a click on a magic link never authenticates by itself.  The handler
    of the click leaves the session and the store as they were, whatever the
    query; with a well-formed token and no pending email in the session it
    shows the manual confirmation view, and with a pending email it shows the
    form that submits itself. *)
Theorem magic_link_click_requires_confirmation {DB} (req : Request)
    (w : World DB) :
  snd (getSignInWithMagicLinkController req w) = w
  /\ (forall token, req_query req !! "magic_link_token" = Some token ->
        token <> "" ->
        truthy (session_email (session w)) = false ->
        getSignInWithMagicLinkController req w
        = (Render "user/sign-in-with-magic-link"
             [("csrfToken", req_csrfToken req); ("magicLinkToken", token)], w))
  /\ (forall token, req_query req !! "magic_link_token" = Some token ->
        token <> "" ->
        truthy (session_email (session w)) = true ->
        getSignInWithMagicLinkController req w
        = (Render "autosubmit-form"
             [("csrfToken", req_csrfToken req);
              ("actionLabel", "Connexion...");
              ("actionPath", "/users/sign-in-with-magic-link");
              ("inputName", "magic_link_token");
              ("inputValue", token)], w)).
Proof.
  unfold getSignInWithMagicLinkController. ctl_unfold.
  repeat split.
  - destruct (min1 (req_query req !! "magic_link_token")); simpl;
      [destruct (negb _)|]; reflexivity.
  - intros token Hq Hne He.
    rewrite Hq, (min1_nonempty _ Hne). simpl. rewrite He. reflexivity.
  - intros token Hq Hne He.
    rewrite Hq, (min1_nonempty _ Hne). simpl. rewrite He. reflexivity.
Qed.

(** ** Session discipline *)

(** C3: when the password login, the signup or the magic-link login
    authenticates the session (the handler hands over to the next
    middleware), the session holds the user and its pending email is unset,
    in the same step. *)
Theorem authenticated_clears_pending_email {DB} (M : Managers DB) (a : Action)
    (req : Request) (w : World DB) :
  authenticating a = true ->
  fst (handle M a req w) = Next ->
  session_email (session (snd (handle M a req w))) = None
  /\ is_Some (session_user (session (snd (handle M a req w)))).
Proof.
  intros Ha.
  destruct a; try discriminate Ha; clear Ha;
    unfold handle, postSignInMiddleware, postSignUpController,
      postSignInWithMagicLinkController; ctl_unfold.
  - destruct (min1 (req_body req !! "password")) as [p|]; simpl;
      [|discriminate].
    destruct (login M (session_email (session w)) p (db w)) as [[u|e] d];
      simpl; [eauto | destruct e; discriminate].
  - destruct (min1 (req_body req !! "password")) as [p|]; simpl;
      [|discriminate].
    destruct (signup M (session_email (session w)) p (db w)) as [[u|e] d];
      simpl; [eauto | destruct e; discriminate].
  - destruct (min1 (req_body req !! "magic_link_token")) as [t|]; simpl.
    + destruct (loginWithMagicLink M t (db w)) as [[u|e] d]; simpl;
        [eauto | destruct e; try discriminate;
                 destruct (isEmpty _); discriminate].
    + destruct (isEmpty _); discriminate.
Qed.

(** C5: a magic-link login that fails, because the payload is malformed or
    because the token is refused as invalid, keeps the session as it was, and
    its outcome depends on the session only: [invalid_magic_link] when no
    email is pending, [invalid_magic_link_with_reinit] when one is. *)
Theorem failed_magic_link_outcome {DB} (M : Managers DB) (req : Request)
    (w : World DB) :
  (min1 (req_body req !! "magic_link_token") = None
   \/ exists token issues,
        min1 (req_body req !! "magic_link_token") = Some token
        /\ (fst (loginWithMagicLink M token (db w)) = Throw InvalidMagicLinkError
            \/ fst (loginWithMagicLink M token (db w)) = Throw (ZodError issues))) ->
  session (snd (postSignInWithMagicLinkController M req w)) = session w
  /\ (truthy (session_email (session w)) = false ->
      fst (postSignInWithMagicLinkController M req w)
      = Redirect "/users/start-sign-in?notification=invalid_magic_link")
  /\ (truthy (session_email (session w)) = true ->
      fst (postSignInWithMagicLinkController M req w)
      = Redirect "/users/sign-in?notification=invalid_magic_link_with_reinit").
Proof.
  unfold postSignInWithMagicLinkController, isEmpty. ctl_unfold.
  intros [H | (token & issues & H & Hm)]; rewrite H; simpl.
  - repeat split; intros ->; reflexivity.
  - destruct (loginWithMagicLink M token (db w)) as [r d]; simpl in *.
    destruct Hm as [-> | ->]; simpl;
      repeat split; intros ->; reflexivity.
Qed.

(** C8: a transition that fails, that is, whose response is not the one its
    handler gives at the end of its [try] block, leaves the session exactly as
    it was.  In particular a password login answered by [invalid_credentials]
    keeps the pending email and the user of the session, and an email
    verification answered by [invalid_verify_email_code] keeps the user of the
    session, its verification date included. *)
Theorem failed_transition_keeps_session {DB} (M : Managers DB) (req : Request)
    (w : World DB) :
  (forall a, succeeded a (fst (handle M a req w)) = false ->
     session (snd (handle M a req w)) = session w)
  /\ (fst (postSignInMiddleware M req w)
      = Redirect "/users/sign-in?notification=invalid_credentials" ->
      session (snd (postSignInMiddleware M req w)) = session w)
  /\ (fst (postVerifyEmailController M req w)
      = Redirect "/users/verify-email?notification=invalid_verify_email_code" ->
      session (snd (postVerifyEmailController M req w)) = session w).
Proof.
  assert (G : forall a, succeeded a (fst (handle M a req w)) = false ->
                session (snd (handle M a req w)) = session w).
  { intros a.
    destruct a; unfold handle, issueSessionOrRedirectController,
      postStartSignInController, postSignInMiddleware, postSignUpController,
      postSendMagicLinkController, getSignInWithMagicLinkController,
      postSignInWithMagicLinkController, postSendEmailVerificationController,
      postVerifyEmailController, postResetPasswordController,
      postChangePasswordController, postPersonalInformationsController;
      ctl_unfold; simpl;
      ctl_cases; simpl; intros; try reflexivity; try discriminate. }
  split; [exact G|]. split.
  - intros H. apply (G PasswordLogin). simpl. rewrite H. reflexivity.
  - intros H. apply (G ConsumeEmailVerification). simpl. rewrite H. reflexivity.
Qed.

(** ** The store *)





(** A refused verification code leaves the store, and with it the
    verification date of every record, as it was. *)
Lemma failed_verify_email_keeps_store (email code : string) (st : Store)
    (e : Error) :
  fst (spec_verifyEmail email code st) = Throw e ->
  snd (spec_verifyEmail email code st) = st.
Proof.
  unfold spec_verifyEmail.
  destruct (validate EmailVerification code st) as [t|f];
    destruct (findByEmail email st) as [u|]; simpl; try reflexivity.
  destruct (String.eqb (subjectEmail t) email); simpl; [discriminate | reflexivity].
Qed.

(** ** Whitespace in tokens *)

Lemma validate_strip_whitespace (k : TokenKind) (token : string) (st : Store) :
  validate k (strip_whitespace token) st = validate k token st.
Proof. unfold validate. rewrite strip_whitespace_idem. reflexivity. Qed.

Lemma markConsumed_strip_whitespace (token : string) (t : SecurityToken)
    (st : Store) :
  markConsumed (strip_whitespace token) t st = markConsumed token t st.
Proof. unfold markConsumed. rewrite strip_whitespace_idem. reflexivity. Qed.

Lemma spec_loginWithMagicLink_strip_whitespace (token : string) (st : Store) :
  spec_loginWithMagicLink (strip_whitespace token) st
  = spec_loginWithMagicLink token st.
Proof.
  unfold spec_loginWithMagicLink. rewrite validate_strip_whitespace.
  destruct (validate MagicLink token st) as [t|f]; [|reflexivity].
  rewrite markConsumed_strip_whitespace. reflexivity.
Qed.

Lemma spec_changePassword_strip_whitespace (C : Config)
    (token password : string) (st : Store) :
  spec_changePassword C (strip_whitespace token) password st
  = spec_changePassword C token password st.
Proof.
  unfold spec_changePassword. rewrite validate_strip_whitespace.
  destruct (validate PasswordReset token st) as [t|f]; [|reflexivity].
  rewrite markConsumed_strip_whitespace. reflexivity.
Qed.

(** C4: a token received from user input is compared after all whitespace
    has been stripped from it, so a token pasted with embedded spaces or line
    breaks is accepted whenever its whitespace-free form is.  The
    email-verification code is stripped by the schema of its handler, for
    whatever manager: both requests are handled alike.  The magic-link token
    and the reset-password token reach their manager as received, and the
    token issuer strips them before the lookup: the two magic-link requests
    are handled alike, and the password change that succeeds with the
    whitespace-free token gives the same response and the same world with
    the pasted one. *)
Theorem pasted_token_accepted_as_stripped {DB} (M : Managers DB) (C : Config)
    (req : Request) (w : World DB) (ws : World Store) :
  (forall raw, req_body req !! "verify_email_token" = Some raw ->
     strip_whitespace raw <> "" ->
     postVerifyEmailController M req w
     = postVerifyEmailController M
         (with_body "verify_email_token" (strip_whitespace raw) req) w)
  /\ (forall raw, req_body req !! "magic_link_token" = Some raw ->
        strip_whitespace raw <> "" ->
        postSignInWithMagicLinkController (specManagers C) req ws
        = postSignInWithMagicLinkController (specManagers C)
            (with_body "magic_link_token" (strip_whitespace raw) req) ws)
  /\ (forall raw, req_body req !! "reset_password_token" = Some raw ->
        strip_whitespace raw <> "" ->
        fst (postChangePasswordController (specManagers C)
               (with_body "reset_password_token" (strip_whitespace raw) req) ws)
        = Redirect "/users/start-sign-in?notification=password_change_success" ->
        postChangePasswordController (specManagers C) req ws
        = postChangePasswordController (specManagers C)
            (with_body "reset_password_token" (strip_whitespace raw) req) ws).
Proof.
  split; [|split].
  - intros raw Hraw Hne.
    unfold postVerifyEmailController, with_body. ctl_unfold. simpl.
    rewrite Hraw, lookup_insert_eq.
    rewrite (min1_nonempty _ (strip_whitespace_nonempty _ Hne)).
    rewrite (min1_nonempty _ Hne). simpl.
    rewrite strip_whitespace_idem. reflexivity.
  - intros raw Hraw Hne.
    unfold postSignInWithMagicLinkController, with_body. ctl_unfold. simpl.
    rewrite Hraw, lookup_insert_eq.
    rewrite (min1_nonempty _ (strip_whitespace_nonempty _ Hne)).
    rewrite (min1_nonempty _ Hne). simpl.
    rewrite spec_loginWithMagicLink_strip_whitespace. reflexivity.
  - intros raw Hraw Hne.
    unfold postChangePasswordController, with_body. ctl_unfold. simpl.
    rewrite Hraw, lookup_insert_eq, lookup_insert_ne by discriminate.
    rewrite (min1_nonempty _ (strip_whitespace_nonempty _ Hne)).
    rewrite (min1_nonempty _ Hne).
    destruct (min1 (req_body req !! "password")) as [password|]; simpl.
    + rewrite spec_changePassword_strip_whitespace.
      destruct (spec_changePassword C raw password (db ws)) as [[[]|e] d];
        simpl; [reflexivity|].
      destruct e; simpl; repeat (destruct (bool_decide _); simpl);
        intros H; first [discriminate H | cbv in H; discriminate H].
    + intros H. cbv in H. discriminate H.
Qed.

(** ** Password reset *)


(** ** Account enumeration *)

(** C6: the request of a magic link and the request of a password reset give
    the same response and leave the same session whatever the store holds, so
    whether or not a record with that email exists; for a pending email,
    respectively for a login that passes the email schema, that response is
    the success one, [magic-link-sent] and [reset_password_email_sent]. *)
Theorem requests_do_not_reveal_accounts (C : Config) (req : Request)
    (s : Session) (st1 st2 : Store) :
  let M := specManagers C in
  (fst (postSendMagicLinkController M req (mkWorld s st1))
   = fst (postSendMagicLinkController M req (mkWorld s st2))
   /\ session (snd (postSendMagicLinkController M req (mkWorld s st1)))
      = session (snd (postSendMagicLinkController M req (mkWorld s st2))))
  /\ (truthy (session_email s) = true ->
      fst (postSendMagicLinkController M req (mkWorld s st1))
      = Redirect "/users/magic-link-sent")
  /\ (fst (postResetPasswordController M req (mkWorld s st1))
      = fst (postResetPasswordController M req (mkWorld s st2))
      /\ session (snd (postResetPasswordController M req (mkWorld s st1)))
         = session (snd (postResetPasswordController M req (mkWorld s st2))))
  /\ (is_Some (loginSchema C (req_body req !! "login")) ->
      fst (postResetPasswordController M req (mkWorld s st1))
      = Redirect "/users/start-sign-in?notification=reset_password_email_sent").
Proof.
  simpl.
  unfold postSendMagicLinkController, postResetPasswordController.
  ctl_unfold. simpl. unfold spec_sendSendMagicLinkEmail.
  repeat split.
  - destruct (truthy (session_email s)); reflexivity.
  - destruct (truthy (session_email s)); reflexivity.
  - intros ->. reflexivity.
  - destruct (loginSchema C (req_body req !! "login")); reflexivity.
  - destruct (loginSchema C (req_body req !! "login")); reflexivity.
  - intros [e ->]. reflexivity.
Qed.

(** ** Start of the login *)

Lemma append_empty_r (s : string) : s +:+ "" = s.
Proof.
  induction s as [|c r IH]; [reflexivity|].
  change (String c (r +:+ "") = String c r). f_equal. exact IH.
Qed.

(** C7: a login that passes the format validation (the email schema, then the
    email validator) becomes the pending email of the session, in its
    normalised form, and the response routes to sign-in when a record with
    that email exists and to sign-up otherwise; a login that fails it is
    answered by [invalid_email], the world left as it was, and the redirect
    carries the did-you-mean suggestion when the validator has one. *)
Theorem start_login_routes (C : Config) (req : Request) (w : World Store) :
  let M := specManagers C in
  let pending e := mkWorld (set_session_email (Some e) (session w)) (db w) in
  let login_hint := template (req_body req !! "login") in
  (forall e u, loginSchema C (req_body req !! "login") = Some e ->
     isValid C e = true -> findByEmail e (db w) = Some u ->
     postStartSignInController M req w = (Redirect "/users/sign-in", pending e))
  /\ (forall e, loginSchema C (req_body req !! "login") = Some e ->
        isValid C e = true -> findByEmail e (db w) = None ->
        postStartSignInController M req w = (Redirect "/users/sign-up", pending e))
  /\ (loginSchema C (req_body req !! "login") = None ->
      postStartSignInController M req w
      = (Redirect ("/users/start-sign-in?notification=invalid_email&login_hint="
                     +:+ login_hint), w))
  /\ (forall e, loginSchema C (req_body req !! "login") = Some e ->
        isValid C e = false -> truthy (suggest C e) = false ->
        postStartSignInController M req w
        = (Redirect ("/users/start-sign-in?notification=invalid_email&login_hint="
                       +:+ login_hint), w))
  /\ (forall e d, loginSchema C (req_body req !! "login") = Some e ->
        isValid C e = false -> suggest C e = Some d -> d <> "" ->
        postStartSignInController M req w
        = (Redirect ("/users/start-sign-in?notification=invalid_email&login_hint="
                       +:+ login_hint +:+ "&did_you_mean=" +:+ d), w)).
Proof.
  simpl. unfold postStartSignInController. ctl_unfold. simpl.
  unfold spec_startLogin. destruct w as [s st]. simpl.
  repeat split.
  - intros e u -> -> Hu. simpl. rewrite Hu. reflexivity.
  - intros e -> -> Hu. simpl. rewrite Hu. reflexivity.
  - intros ->. reflexivity.
  - intros e -> -> ->. simpl. rewrite append_empty_r. reflexivity.
  - intros e d -> -> -> Hd. simpl.
    destruct d as [|c r]; [congruence|]. reflexivity.
Qed.

(** * Instances on the example store *)

Lemma issueSessionOrRedirect_order_witness :
  let M := specManagers exampleConfig in
  let req := form [] in
  issueSessionOrRedirectController M req (mkWorld interactionSession exampleStore)
  = (Redirect "/interaction/Xq3/login", mkWorld interactionSession exampleStore)
  /\ issueSessionOrRedirectController M req
       (mkWorld trustedRefererSession exampleStore)
     = (Redirect "/dashboard", mkWorld aliceSession exampleStore)
  /\ issueSessionOrRedirectController M req
       (mkWorld untrustedRefererSession exampleStore)
     = (Redirect "/", mkWorld untrustedRefererSession exampleStore)
  /\ issueSessionOrRedirectController M req (mkWorld aliceSession exampleStore)
     = (Redirect "/", mkWorld aliceSession exampleStore).
Proof.
  intros M req. split; [|split; [|split]].
  - apply (proj1 (issueSessionOrRedirect_order M req
                    (mkWorld interactionSession exampleStore)) "Xq3");
      [reflexivity | discriminate].
  - apply (proj1 (proj2 (issueSessionOrRedirect_order M req
                           (mkWorld trustedRefererSession exampleStore)))
             "/dashboard"); [reflexivity | reflexivity | discriminate | reflexivity].
  - apply (proj1 (proj2 (proj2 (issueSessionOrRedirect_order M req
                                  (mkWorld untrustedRefererSession exampleStore))))
             "https://elsewhere.example/"); reflexivity.
  - apply (proj2 (proj2 (proj2 (issueSessionOrRedirect_order M req
                                  (mkWorld aliceSession exampleStore)))));
      reflexivity.
Defined.

Lemma empty_password_invalid_credentials_witness :
  let M := specManagers exampleConfig in
  let req := form [("password", "")] in
  let w := mkWorld pendingSession exampleStore in
  req_body req !! "password" = Some ""
  /\ postSignInMiddleware M req w
     = (Redirect "/users/sign-in?notification=invalid_credentials", w)
  /\ postSignUpController M req w
     = (Redirect "/users/sign-up?notification=invalid_credentials", w).
Proof.
  intros M req w.
  assert (H : req_body req !! "password" = Some "") by reflexivity.
  split; [exact H|].
  destruct (empty_password_invalid_credentials M req w H) as (H1 & H2 & _).
  split; assumption.
Defined.

Lemma magic_link_click_requires_confirmation_witness :
  let req := link [("magic_link_token", "ml-4f9a")] in
  getSignInWithMagicLinkController req (mkWorld anonymousSession exampleStore)
  = (Render "user/sign-in-with-magic-link"
       [("csrfToken", "csrf"); ("magicLinkToken", "ml-4f9a")],
     mkWorld anonymousSession exampleStore)
  /\ getSignInWithMagicLinkController req (mkWorld pendingSession exampleStore)
     = (Render "autosubmit-form"
          [("csrfToken", "csrf");
           ("actionLabel", "Connexion...");
           ("actionPath", "/users/sign-in-with-magic-link");
           ("inputName", "magic_link_token");
           ("inputValue", "ml-4f9a")],
        mkWorld pendingSession exampleStore).
Proof.
  intros req. split.
  - apply (proj1 (proj2 (magic_link_click_requires_confirmation req
                           (mkWorld anonymousSession exampleStore))) "ml-4f9a");
      [reflexivity | discriminate | reflexivity].
  - apply (proj2 (proj2 (magic_link_click_requires_confirmation req
                           (mkWorld pendingSession exampleStore))) "ml-4f9a");
      [reflexivity | discriminate | reflexivity].
Defined.

Lemma authenticated_clears_pending_email_witness :
  let M := specManagers exampleConfig in
  let req := form [("password", "correct horse battery")] in
  let w := mkWorld pendingSession exampleStore in
  session_email (session w) = Some "alice@example.com"
  /\ fst (handle M PasswordLogin req w) = Next
  /\ session_email (session (snd (handle M PasswordLogin req w))) = None
  /\ is_Some (session_user (session (snd (handle M PasswordLogin req w)))).
Proof.
  intros M req w.
  assert (H : fst (handle M PasswordLogin req w) = Next) by reflexivity.
  split; [reflexivity|]. split; [exact H|].
  apply (authenticated_clears_pending_email M PasswordLogin req w);
    [reflexivity | exact H].
Defined.

Lemma failed_magic_link_outcome_witness :
  let M := specManagers exampleConfig in
  let req := form [("magic_link_token", "ml-0000")] in
  fst (loginWithMagicLink M "ml-0000" exampleStore) = Throw InvalidMagicLinkError
  /\ fst (postSignInWithMagicLinkController M req
            (mkWorld anonymousSession exampleStore))
     = Redirect "/users/start-sign-in?notification=invalid_magic_link"
  /\ fst (postSignInWithMagicLinkController M req
            (mkWorld pendingSession exampleStore))
     = Redirect "/users/sign-in?notification=invalid_magic_link_with_reinit"
  /\ session (snd (postSignInWithMagicLinkController M req
                     (mkWorld pendingSession exampleStore)))
     = pendingSession.
Proof.
  intros M req.
  assert (H : fst (loginWithMagicLink M "ml-0000" exampleStore)
              = Throw InvalidMagicLinkError) by reflexivity.
  assert (F : forall s,
             min1 (req_body req !! "magic_link_token") = None
             \/ exists token issues,
                  min1 (req_body req !! "magic_link_token") = Some token
                  /\ (fst (loginWithMagicLink M token (db (mkWorld s exampleStore)))
                      = Throw InvalidMagicLinkError
                      \/ fst (loginWithMagicLink M token
                                (db (mkWorld s exampleStore)))
                         = Throw (ZodError issues))).
  { intros s. right. exists "ml-0000", []. split; [reflexivity | left; exact H]. }
  split; [exact H|]. split; [|split].
  - apply (failed_magic_link_outcome M req _ (F anonymousSession)). reflexivity.
  - apply (failed_magic_link_outcome M req _ (F pendingSession)). reflexivity.
  - apply (failed_magic_link_outcome M req _ (F pendingSession)).
Defined.

Lemma failed_transition_keeps_session_witness :
  let M := specManagers exampleConfig in
  let req := form [("password", "not the password");
                   ("verify_email_token", "9999999999")] in
  let w := mkWorld (mkSession (Some "alice@example.com") (Some alice) None None)
             exampleStore in
  fst (postSignInMiddleware M req w)
  = Redirect "/users/sign-in?notification=invalid_credentials"
  /\ session (snd (handle M PasswordLogin req w)) = session w
  /\ session (snd (postSignInMiddleware M req w)) = session w
  /\ fst (postVerifyEmailController M req w)
     = Redirect "/users/verify-email?notification=invalid_verify_email_code"
  /\ session (snd (postVerifyEmailController M req w)) = session w.
Proof.
  intros M req w.
  destruct (failed_transition_keeps_session M req w) as (G & H1 & H2).
  split; [reflexivity|]. split; [apply (G PasswordLogin); reflexivity|].
  split; [apply H1; reflexivity|]. split; [reflexivity|].
  apply H2; reflexivity.
Defined.

Lemma pasted_token_accepted_as_stripped_witness :
  let M := specManagers exampleConfig in
  let req := form [("verify_email_token", "012 345 6789");
                   ("magic_link_token", "ml- 4f9a");
                   ("reset_password_token", "rp- 77c1");
                   ("password", "a long enough password")] in
  let w := mkWorld aliceSession exampleStore in
  (strip_whitespace "012 345 6789" = "0123456789"
   /\ fst (postVerifyEmailController M req w) = Next
   /\ postVerifyEmailController M req w
      = postVerifyEmailController M
          (with_body "verify_email_token" (strip_whitespace "012 345 6789") req) w)
  /\ (strip_whitespace "ml- 4f9a" = "ml-4f9a"
      /\ fst (postSignInWithMagicLinkController M req w) = Next
      /\ postSignInWithMagicLinkController M req w
         = postSignInWithMagicLinkController M
             (with_body "magic_link_token" (strip_whitespace "ml- 4f9a") req) w)
  /\ (strip_whitespace "rp- 77c1" = "rp-77c1"
      /\ fst (postChangePasswordController M req w)
         = Redirect "/users/start-sign-in?notification=password_change_success"
      /\ postChangePasswordController M req w
         = postChangePasswordController M
             (with_body "reset_password_token" (strip_whitespace "rp- 77c1") req) w).
Proof.
  intros M req w.
  destruct (pasted_token_accepted_as_stripped M exampleConfig req w w)
    as (H1 & H2 & H3).
  split; [|split].
  - split; [reflexivity|]. split; [reflexivity|].
    apply (H1 "012 345 6789"); [reflexivity | discriminate].
  - split; [reflexivity|]. split; [reflexivity|].
    apply (H2 "ml- 4f9a"); [reflexivity | discriminate].
  - split; [reflexivity|]. split; [reflexivity|].
    apply (H3 "rp- 77c1"); [reflexivity | discriminate | reflexivity].
Defined.


Lemma requests_do_not_reveal_accounts_witness :
  let M := specManagers exampleConfig in
  let req := form [("login", "alice@example.com")] in
  findByEmail "alice@example.com" exampleStore = Some alice
  /\ findByEmail "alice@example.com" emptyStore = None
  /\ fst (postSendMagicLinkController M req (mkWorld pendingSession exampleStore))
     = Redirect "/users/magic-link-sent"
  /\ fst (postSendMagicLinkController M req (mkWorld pendingSession emptyStore))
     = fst (postSendMagicLinkController M req (mkWorld pendingSession exampleStore))
  /\ fst (postResetPasswordController M req (mkWorld pendingSession exampleStore))
     = Redirect "/users/start-sign-in?notification=reset_password_email_sent"
  /\ fst (postResetPasswordController M req (mkWorld pendingSession emptyStore))
     = fst (postResetPasswordController M req (mkWorld pendingSession exampleStore)).
Proof.
  intros M req.
  destruct (requests_do_not_reveal_accounts exampleConfig req pendingSession
              exampleStore emptyStore) as ((H1 & _) & H2 & (H3 & _) & H4).
  split; [reflexivity|]. split; [reflexivity|].
  split; [apply H2; reflexivity|]. split; [symmetry; exact H1|].
  split; [apply H4; eexists; reflexivity|]. symmetry; exact H3.
Defined.

Lemma start_login_routes_witness :
  let M := specManagers exampleConfig in
  let w := mkWorld anonymousSession exampleStore in
  postStartSignInController M (form [("login", "alice@example.com")]) w
  = (Redirect "/users/sign-in", mkWorld pendingSession exampleStore)
  /\ fst (postStartSignInController M (form [("login", "bob@example.com")]) w)
     = Redirect "/users/sign-up"
  /\ postStartSignInController M (form []) w
     = (Redirect "/users/start-sign-in?notification=invalid_email&login_hint=undefined",
        w)
  /\ postStartSignInController M (form [("login", "bob")]) w
     = (Redirect "/users/start-sign-in?notification=invalid_email&login_hint=bob", w)
  /\ postStartSignInController M (form [("login", "alice.example.com")]) w
     = (Redirect ("/users/start-sign-in?notification=invalid_email"
                    +:+ "&login_hint=alice.example.com"
                    +:+ "&did_you_mean=alice@example.com"), w).
Proof.
  intros M w. subst M. split; [|split; [|split; [|split]]].
  - apply (proj1 (start_login_routes exampleConfig
                    (form [("login", "alice@example.com")]) w)
             "alice@example.com" alice); reflexivity.
  - rewrite (proj1 (proj2 (start_login_routes exampleConfig
                             (form [("login", "bob@example.com")]) w))
               "bob@example.com"); reflexivity.
  - apply (proj1 (proj2 (proj2 (start_login_routes exampleConfig (form []) w))));
      reflexivity.
  - apply (proj1 (proj2 (proj2 (proj2 (start_login_routes exampleConfig
                                         (form [("login", "bob")]) w)))) "bob");
      reflexivity.
  - apply (proj2 (proj2 (proj2 (proj2 (start_login_routes exampleConfig
                                         (form [("login", "alice.example.com")]) w))))
             "alice.example.com" "alice@example.com");
      [reflexivity | reflexivity | reflexivity | discriminate].
Defined.

(** * Further properties of the handlers *)

Ltac unfold_handlers :=
  unfold handle, issueSessionOrRedirectController,
    postStartSignInController, postSignInMiddleware, postSignUpController,
    postSendMagicLinkController, getSignInWithMagicLinkController,
    postSignInWithMagicLinkController, postSendEmailVerificationController,
    postVerifyEmailController, postResetPasswordController,
    postChangePasswordController, postPersonalInformationsController.

Ltac flow_cases :=
  repeat match goal with
         | |- context [min1 ?x] => destruct (min1 x) eqn:?; simpl
         | |- context [emailSchema ?M ?x] =>
             destruct (emailSchema M x) eqn:?; simpl
         | |- context [getParamsForPostPersonalInformationsController ?r] =>
             destruct (getParamsForPostPersonalInformationsController r)
               as [?|[]] eqn:?; simpl
         | |- context [match ?c with pair _ _ => _ end] =>
             lazymatch type of c with
             | (Res _ * World _)%type => fail
             | (Res _ * _)%type => destruct c as [[?|[]] ?] eqn:?; simpl
             end
         | |- context [match ?c with pair _ _ => _ end] =>
             is_var c; destruct c; simpl
         | |- context [match ?o with Some _ => _ | None => _ end] =>
             is_var o; destruct o; simpl
         | |- context [if ?b then _ else _] => destruct b eqn:?; simpl
         end.

(** ** What a handler may write *)

(** X1: the request of a magic link, the click on a magic link, the request
    of a verification email, the request of a password reset and the change
    of the password never write the session, whatever the managers answer:
    changing a password, in particular, does not sign the user in. *)
Theorem requests_never_write_session {DB} (M : Managers DB) (req : Request)
    (w : World DB) :
  session (snd (postSendMagicLinkController M req w)) = session w
  /\ session (snd (getSignInWithMagicLinkController req w)) = session w
  /\ session (snd (postSendEmailVerificationController M req w)) = session w
  /\ session (snd (postResetPasswordController M req w)) = session w
  /\ session (snd (postChangePasswordController M req w)) = session w.
Proof.
  unfold_handlers; ctl_unfold; simpl.
  split; [|split; [|split; [|split]]]; ctl_cases; reflexivity.
Qed.

(** X2: no handler of the flow writes the interaction id of the session, and
    the stored referer is only ever written by the redirect after
    authentication, which clears it and leaves the pending email and the user
    as they are. *)
Theorem interaction_and_referer_preserved {DB} (M : Managers DB) (a : Action)
    (req : Request) (w : World DB) :
  let s' := session (snd (handle M a req w)) in
  session_interactionId s' = session_interactionId (session w)
  /\ (session_referer s' = session_referer (session w)
      \/ a = IssueSessionOrRedirect /\ session_referer s' = None
         /\ session_email s' = session_email (session w)
         /\ session_user s' = session_user (session w)).
Proof.
  destruct w as [[e0 u0 i0 r0] d0].
  destruct a; unfold_handlers; ctl_unfold; simpl; flow_cases;
    (split; [reflexivity|]);
    first [left; reflexivity | right; repeat split; reflexivity].
Qed.

(** X3: a session without a user gets one only through the password login,
    the signup or the magic-link login, only with the response that hands
    over to the next middleware, and the user is the one the manager of that
    handler returned. *)
Theorem user_installed_only_by_authentication {DB} (M : Managers DB)
    (a : Action) (req : Request) (w : World DB) (u : User) :
  session_user (session w) = None ->
  session_user (session (snd (handle M a req w))) = Some u ->
  fst (handle M a req w) = Next
  /\ ((a = PasswordLogin
       /\ exists password d,
            login M (session_email (session w)) password (db w) = (Ok u, d))
      \/ (a = Signup
          /\ exists password d,
               signup M (session_email (session w)) password (db w) = (Ok u, d))
      \/ (a = ConsumeMagicLink
          /\ exists token d, loginWithMagicLink M token (db w) = (Ok u, d))).
Proof.
  destruct w as [[e0 u0 i0 r0] d0]. simpl. intros ->.
  destruct a; unfold_handlers; ctl_unfold; simpl; flow_cases;
    try discriminate; intros [= <-]; (split; [reflexivity|]);
    first [ left; split; [reflexivity|]; do 2 eexists; eassumption
          | right; left; split; [reflexivity|]; do 2 eexists; eassumption
          | right; right; split; [reflexivity|]; do 2 eexists; eassumption ].
Qed.

(** X4: the pending email of the session is written in two ways only: the
    start of the login sets it to the email [startLogin] returned, and an
    authenticating handler that succeeds unsets it. *)
Theorem pending_email_writers {DB} (M : Managers DB) (a : Action)
    (req : Request) (w : World DB) :
  let s' := session (snd (handle M a req w)) in
  session_email s' = session_email (session w)
  \/ (authenticating a = true /\ fst (handle M a req w) = Next
      /\ session_email s' = None)
  \/ (a = StartLogin
      /\ exists login email userExists d,
           emailSchema M (req_body req !! "login") = Some login
           /\ startLogin M login (db w) = (Ok (email, userExists), d)
           /\ session_email s' = Some email).
Proof.
  destruct w as [[e0 u0 i0 r0] d0].
  destruct a; unfold_handlers; ctl_unfold; simpl; flow_cases;
    first [ left; reflexivity
          | right; left; repeat split; reflexivity
          | right; right; split; [reflexivity|];
            do 4 eexists; repeat split; eassumption ].
Qed.

(** ** Redirect after authentication *)

(** X5: the redirect after authentication has no open target: it goes to
    ['/'], to the login of the pending interaction, or to a URL that
    [isUrlTrusted] accepts. *)
Theorem redirect_target_is_trusted {DB} (M : Managers DB) (req : Request)
    (w : World DB) :
  exists url,
    fst (issueSessionOrRedirectController M req w) = Redirect url
    /\ (url = "/" \/ isUrlTrusted M url = true
        \/ exists i, session_interactionId (session w) = Some i
                     /\ url = "/interaction/" +:+ i +:+ "/login").
Proof.
  unfold issueSessionOrRedirectController. ctl_unfold. simpl.
  destruct (truthy (session_interactionId (session w))) eqn:Hi; simpl.
  - apply truthy_Some in Hi as (i & Hi & _). rewrite Hi. simpl. eauto 8.
  - destruct (truthy (session_referer (session w))) eqn:Hr; simpl; [|eauto].
    destruct (isUrlTrusted M (template (session_referer (session w)))) eqn:Ht;
      simpl; eauto.
Qed.

(** X6: the stored referer is used once: after a redirect to it, the next
    redirect after authentication of the same session goes to ['/'] and
    leaves the session as it is. *)
Theorem referer_used_once {DB} (M : Managers DB) (req req' : Request)
    (w : World DB) (r : string) :
  truthy (session_interactionId (session w)) = false ->
  session_referer (session w) = Some r ->
  fst (issueSessionOrRedirectController M req w) = Redirect r ->
  r <> "/" ->
  let w1 := snd (issueSessionOrRedirectController M req w) in
  issueSessionOrRedirectController M req' w1 = (Redirect "/", w1).
Proof.
  unfold issueSessionOrRedirectController. ctl_unfold. simpl.
  intros Hi Hr. rewrite Hi, Hr. simpl.
  destruct (negb (is_empty_string r) && isUrlTrusted M r) eqn:E; simpl.
  - intros _ _. rewrite Hi. reflexivity.
  - intros [= <-] H. congruence.
Qed.

(** ** Malformed payloads *)

(** X7: a payload that fails the schema of its handler is answered by the
    redirect of that handler without any manager being consulted: the store
    and the session are left as they were, whatever the managers are. *)
Theorem malformed_payload_runs_no_manager {DB} (M : Managers DB)
    (req : Request) (w : World DB) :
  (emailSchema M (req_body req !! "login") = None ->
     postStartSignInController M req w
     = (Redirect ("/users/start-sign-in?notification=invalid_email&login_hint="
                    +:+ template (req_body req !! "login")), w)
     /\ postResetPasswordController M req w
        = (Redirect "/users/reset-password?notification=invalid_email", w))
  /\ (min1 (req_body req !! "verify_email_token") = None ->
      postVerifyEmailController M req w
      = (Redirect "/users/verify-email?notification=invalid_verify_email_code", w))
  /\ (min1 (req_body req !! "magic_link_token") = None ->
      snd (postSignInWithMagicLinkController M req w) = w)
  /\ (forall f, f ∈ ["given_name"; "family_name"; "phone_number"; "job"] ->
        min1 (req_body req !! f) = None ->
        postPersonalInformationsController M req w
        = (Redirect
             "/users/personal-information?notification=invalid_personal_informations",
           w)).
Proof.
  split; [|split; [|split]].
  - intros H. unfold_handlers; ctl_unfold. rewrite H. split; reflexivity.
  - intros H. unfold_handlers; ctl_unfold. rewrite H. reflexivity.
  - intros H. unfold_handlers; ctl_unfold. rewrite H. reflexivity.
  - intros f Hf H.
    unfold_handlers; ctl_unfold.
    unfold getParamsForPostPersonalInformationsController.
    repeat (apply elem_of_cons in Hf as [-> | Hf]; [rewrite H|]);
      [..|apply elem_of_nil in Hf; contradiction];
      repeat match goal with
             | |- context [min1 ?x] => destruct (min1 x)
             end; reflexivity.
Qed.

(** X8: in the change of the password a malformed token takes precedence:
    it is answered by [invalid_token] whatever the password is, while a
    malformed password with a well-formed token is answered by
    [weak_password], the token echoed in the redirect; in both cases
    [changePassword] is not consulted and the world is left as it was. *)
Theorem change_password_malformed_payload {DB} (M : Managers DB)
    (req : Request) (w : World DB) :
  (min1 (req_body req !! "reset_password_token") = None ->
     postChangePasswordController M req w
     = (Redirect "/users/reset-password?notification=invalid_token", w))
  /\ (forall token, min1 (req_body req !! "reset_password_token") = Some token ->
        min1 (req_body req !! "password") = None ->
        postChangePasswordController M req w
        = (Redirect ("/users/change-password?reset_password_token=" +:+ token
                       +:+ "&notification=weak_password"), w)).
Proof.
  split.
  - intros H. unfold_handlers; ctl_unfold. rewrite H.
    destruct (min1 (req_body req !! "password")); reflexivity.
  - intros token H Hp. unfold_handlers; ctl_unfold. rewrite H, Hp.
    apply min1_Some in H as [-> _]. reflexivity.
Qed.

(** ** Handlers that need a user *)

(** X9: the email verification, the request of a verification email and the
    update of the personal information read the user of the session: when
    the session has none, a well-formed request ends in the generic failure
    handler with a [TypeError], no manager is consulted and the world is left
    as it was. *)
Theorem handlers_need_session_user {DB} (M : Managers DB) (req : Request)
    (w : World DB) :
  session_user (session w) = None ->
  postSendEmailVerificationController M req w = (NextError TypeError, w)
  /\ (is_Some (min1 (req_body req !! "verify_email_token")) ->
      postVerifyEmailController M req w = (NextError TypeError, w))
  /\ (is_Some (min1 (req_body req !! "given_name")) ->
      is_Some (min1 (req_body req !! "family_name")) ->
      is_Some (min1 (req_body req !! "phone_number")) ->
      is_Some (min1 (req_body req !! "job")) ->
      postPersonalInformationsController M req w = (NextError TypeError, w)).
Proof.
  intros Hu. split; [|split].
  - unfold_handlers; ctl_unfold. rewrite Hu. reflexivity.
  - intros [t Ht]. unfold_handlers; ctl_unfold. rewrite Ht. simpl.
    rewrite Hu. reflexivity.
  - intros [g Hg] [f Hf] [p Hp] [j Hj]. unfold_handlers; ctl_unfold.
    unfold getParamsForPostPersonalInformationsController.
    rewrite Hg, Hf, Hp, Hj. simpl. rewrite Hu. reflexivity.
Qed.

(** ** The verification code *)

(** X10: the non-empty check of the verification code runs before the
    whitespace is stripped: a code made of whitespace only passes it and
    [verifyEmail] is consulted with the empty string, whose answer decides
    the outcome. *)
Theorem blank_code_reaches_verifyEmail {DB} (M : Managers DB) (req : Request)
    (w : World DB) (raw : string) (u : User) :
  req_body req !! "verify_email_token" = Some raw ->
  raw <> "" ->
  strip_whitespace raw = "" ->
  session_user (session w) = Some u ->
  (forall u' d, verifyEmail M (user_email u) "" (db w) = (Ok u', d) ->
     postVerifyEmailController M req w
     = (Next, mkWorld (set_session_user (Some u') (session w)) d))
  /\ (forall d, verifyEmail M (user_email u) "" (db w) = (Throw InvalidTokenError, d) ->
        postVerifyEmailController M req w
        = (Redirect "/users/verify-email?notification=invalid_verify_email_code",
           mkWorld (session w) d)).
Proof.
  intros Hraw Hne Hs Hu.
  unfold_handlers; ctl_unfold.
  rewrite Hraw, (min1_nonempty _ Hne). simpl. rewrite Hu, Hs. simpl.
  split; intros; match goal with H : verifyEmail _ _ _ _ = _ |- _ => rewrite H end;
    reflexivity.
Qed.

Lemma is_js_space_false (u : string) :
  is_js_space u = false
  <-> u ∉ map utf8_encode js_whitespace_code_points.
Proof.
  unfold is_js_space.
  induction (map utf8_encode js_whitespace_code_points) as [|x l IH]; simpl.
  - split; [intros _; apply not_elem_of_nil | reflexivity].
  - rewrite not_elem_of_cons, orb_false_iff, IH, String.eqb_neq. tauto.
Qed.

(** X11: stripping the whitespace removes exactly the characters of the
    class [\s] of ECMAScript and keeps every other character, in order: the
    characters of the result are those of the input that are not the
    encoding of U+0009 to U+000D, U+0020, U+00A0, U+1680, U+2000 to U+200A,
    U+2028, U+2029, U+202F, U+205F, U+3000 or U+FEFF, whose bytes are
    listed; and the characters of a string, put together, are the string. *)
Theorem strip_whitespace_class (s : string) :
  let class :=
    [9; 10; 11; 12; 13; 32; 160; 5760;
     8192; 8193; 8194; 8195; 8196; 8197; 8198; 8199; 8200; 8201; 8202;
     8232; 8233; 8239; 8287; 12288; 65279]%N in
  utf8_chars (strip_whitespace s)
  = filter (fun u => u ∉ map utf8_encode class) (utf8_chars s)
  /\ map utf8_encode class
     = map bytes
         [[9]; [10]; [11]; [12]; [13]; [32]; [194; 160]; [225; 154; 128];
          [226; 128; 128]; [226; 128; 129]; [226; 128; 130]; [226; 128; 131];
          [226; 128; 132]; [226; 128; 133]; [226; 128; 134]; [226; 128; 135];
          [226; 128; 136]; [226; 128; 137]; [226; 128; 138];
          [226; 128; 168]; [226; 128; 169]; [226; 128; 175]; [226; 129; 159];
          [227; 128; 128]; [239; 187; 191]]%N
  /\ join (utf8_chars s) = s.
Proof.
  split; [|split].
  - rewrite utf8_chars_strip_whitespace.
    apply list_filter_iff. intros u. apply is_js_space_false.
  - reflexivity.
  - apply join_utf8_chars.
Qed.

(** ** The personal information *)

(** X12: the parameters of the personal information are accepted exactly
    when the four properties are present and non-empty, and are then the
    values of the body, unchanged; otherwise the error lists exactly the
    properties that are missing or empty. *)
Theorem personal_information_params (req : Request) :
  match getParamsForPostPersonalInformationsController req with
  | Ok p =>
      req_body req !! "given_name" = Some (given_name p) /\ given_name p <> ""
      /\ req_body req !! "family_name" = Some (family_name p)
      /\ family_name p <> ""
      /\ req_body req !! "phone_number" = Some (phone_number p)
      /\ phone_number p <> ""
      /\ req_body req !! "job" = Some (job p) /\ job p <> ""
  | Throw e =>
      exists issues,
        e = ZodError issues /\ issues <> []
        /\ forall f, f ∈ issues <->
             f ∈ ["given_name"; "family_name"; "phone_number"; "job"]
             /\ min1 (req_body req !! f) = None
  end.
Proof.
  unfold getParamsForPostPersonalInformationsController.
  destruct (min1 (req_body req !! "given_name")) as [g|] eqn:Hg;
    destruct (min1 (req_body req !! "family_name")) as [f|] eqn:Hf;
    destruct (min1 (req_body req !! "phone_number")) as [p|] eqn:Hp;
    destruct (min1 (req_body req !! "job")) as [j|] eqn:Hj; simpl.
  1: { apply min1_Some in Hg, Hf, Hp, Hj. intuition. }
  all: eexists; split; [reflexivity|]; split; [discriminate|];
    intros x; rewrite !elem_of_cons, !elem_of_nil; split;
    [ intros H; decompose [or] H; subst; try contradiction; split; auto 10
    | intros [H Hx]; decompose [or] H; subst; try contradiction;
      try congruence; auto 10 ].
Qed.

(** ** Notifications of the redirects *)

Tactic Notation "known_notification" constr(path) constr(label) :=
  solve [ left; exists label; eexists; split;
          [ unfold first_query_parameter; exists path; eexists; split;
            [ reflexivity
            | repeat (split; [reflexivity|]);
              first [ left; reflexivity | right; eexists; reflexivity ] ]
          | split; [ reflexivity
                   | first [ left; reflexivity | right; reflexivity ] ] ] ].

(** X13: every redirect by which a handler of the flow reports a failure
    has [notification=label] as the first parameter of its query, after a
    fixed path, the label being defined in the table of the notification
    messages with the type [error] or [warning]; the one exception is the
    [weak_password] redirect of the change of the password, where the token
    of the payload, echoed as it was received, comes before the parameter. *)
Theorem failure_redirect_notification {DB} (M : Managers DB)
    (a : Action) (req : Request) (w : World DB) (url : string) :
  fst (handle M a req w) = Redirect url ->
  succeeded a (Redirect url) = false ->
  (exists label m,
     first_query_parameter url "notification" label
     /\ notificationMessages !! label = Some m
     /\ (type m = "error" \/ type m = "warning"))
  \/ (a = ConsumePasswordReset
      /\ url = "/users/change-password?reset_password_token="
                +:+ template (req_body req !! "reset_password_token")
                +:+ "&notification=weak_password").
Proof.
  destruct w as [[e0 u0 i0 r0] d0].
  destruct a; unfold_handlers; ctl_unfold; simpl; flow_cases;
    intros [= <-]; simpl; intros Hs; try discriminate Hs; clear Hs;
    first
      [ known_notification "/users/start-sign-in" "invalid_email"
      | known_notification "/users/sign-in" "invalid_credentials"
      | known_notification "/users/start-sign-in" "email_unavailable"
      | known_notification "/users/sign-up" "weak_password"
      | known_notification "/users/sign-up" "invalid_credentials"
      | known_notification "/users/verify-email" "invalid_verify_email_code"
      | known_notification "/users/personal-information" "email_verified_already"
      | known_notification "/users/start-sign-in" "invalid_magic_link"
      | known_notification "/users/sign-in" "invalid_magic_link_with_reinit"
      | known_notification "/users/reset-password" "invalid_email"
      | known_notification "/users/reset-password" "invalid_token"
      | known_notification "/users/personal-information"
          "invalid_personal_informations"
      | right; split; reflexivity ].
Qed.

(** ** The login, from the email to the session *)

(** X14: the start of the login followed by the password login, or by the
    signup, composes: the manager of the second step is consulted with the
    email [startLogin] returned and with the store it left, and on its
    success the session holds the user it returned and no pending email,
    the interaction id and the referer being those of the start. *)
Theorem login_flow_composes {DB} (M : Managers DB) (req1 req2 : Request)
    (w : World DB) (l e password : string) (userExists : bool) (u : User)
    (d1 d2 : DB) :
  emailSchema M (req_body req1 !! "login") = Some l ->
  startLogin M l (db w) = (Ok (e, userExists), d1) ->
  min1 (req_body req2 !! "password") = Some password ->
  (if userExists then login M (Some e) password d1
   else signup M (Some e) password d1) = (Ok u, d2) ->
  let w1 := snd (postStartSignInController M req1 w) in
  let authenticated :=
    mkWorld (mkSession None (Some u) (session_interactionId (session w))
               (session_referer (session w))) d2 in
  if userExists then
    fst (postStartSignInController M req1 w) = Redirect "/users/sign-in"
    /\ postSignInMiddleware M req2 w1 = (Next, authenticated)
  else
    fst (postStartSignInController M req1 w) = Redirect "/users/sign-up"
    /\ postSignUpController M req2 w1 = (Next, authenticated).
Proof.
  intros Hl Hs Hp Hm. destruct w as [[e0 u0 i0 r0] d0]. simpl in *.
  unfold_handlers; ctl_unfold. simpl. rewrite Hl. simpl. rewrite Hs. simpl.
  rewrite Hp. simpl.
  destruct userExists; rewrite Hm; split; reflexivity.
Qed.

(** * Properties of the pages *)

Ltac unfold_pages :=
  unfold show, getStartSignInController, getSignInController,
    getSignUpController, getVerifyEmailController, getMagicLinkSentController,
    getResetPasswordController, getChangePasswordController,
    getPersonalInformationsController, getWelcomeController,
    notifications_of, try_catch_page, parse_optional_string2,
    parse_optional_email.

Ltac page_cases :=
  repeat match goal with
         | |- context [min1 ?x] => destruct (min1 x) eqn:?; simpl
         | |- context [optional_min1 ?x] => destruct (optional_min1 x) eqn:?; simpl
         | |- context [emailSchema ?M ?x] =>
             destruct (emailSchema M x) eqn:?; simpl
         | |- context [optionalBooleanSchema ?V ?x] =>
             destruct (optionalBooleanSchema V x) eqn:?; simpl
         | |- context [getNotificationsFromRequest ?V ?r ?s] =>
             destruct (getNotificationsFromRequest V r s) as [?|[]] eqn:?; simpl
         | |- context [getNotificationLabelFromRequest ?V ?r ?s] =>
             destruct (getNotificationLabelFromRequest V r s) as [?|[]] eqn:?; simpl
         | |- context [match ?c with pair _ _ => _ end] =>
             lazymatch type of c with
             | (Res _ * World _)%type => fail
             | (Res _ * _)%type => destruct c as [[?|[]] ?] eqn:?; simpl
             end
         | |- context [match ?o with Some _ => _ | None => _ end] =>
             is_var o; destruct o; simpl
         | |- context [if ?b then _ else _] => destruct b eqn:?; simpl
         | |- context [req_query ?r !! ?k] =>
             destruct (req_query r !! k) eqn:?; simpl
         end.

(** X15: showing a page never writes the session, and only the page of the
    email verification, which asks for a verification email to be sent,
    may change the store. *)
Theorem pages_keep_session {DB N} (M : Managers DB) (V : Views N) (p : Page)
    (req : Request) (w : World DB) :
  session (snd (show M V p req w)) = session w
  /\ (snd (show M V p req w) = w \/ p = VerifyEmailPage).
Proof.
  destruct w as [[e0 u0 i0 r0] d0].
  destruct p; unfold_pages; ctl_unfold; simpl; page_cases;
    (split; [reflexivity | first [left; reflexivity | right; reflexivity]]).
Qed.

(** X16: on the start page an [invalid_email] notification is shown as an
    error of the email field: the list of notifications is replaced by
    [false] without being computed, and the login hint is the one of the
    query when there is one, the pending email of the session otherwise. *)
Theorem start_page_email_error {DB N} (V : Views N) (req : Request)
    (w : World DB) (login_hint didYouMean : option string) :
  optional_min1 (req_query req !! "login_hint") = Some login_hint ->
  optional_min1 (req_query req !! "did_you_mean") = Some didYouMean ->
  getNotificationLabelFromRequest V req (session w) = Ok (Some "invalid_email") ->
  getStartSignInController V req w
  = (PageRender "user/start-sign-in"
       [("notifications", LBoolean false);
        ("hasEmailError", LBoolean true);
        ("didYouMean", local_string didYouMean);
        ("loginHint",
         local_string (if login_hint is Some h then Some h
                       else session_email (session w)));
        ("csrfToken", LString (req_csrfToken req))], w).
Proof.
  intros Hl Hd Hn. unfold_pages; ctl_unfold. rewrite Hl, Hd. simpl.
  rewrite Hn. simpl.
  destruct login_hint as [h|]; [|reflexivity].
  destruct (req_query req !! "login_hint") as [q|]; [|discriminate].
  simpl in Hl. destruct q; [discriminate|]. injection Hl as <-. reflexivity.
Qed.

(** X17: the pages of the email verification and of the personal
    information need the user of the session: without one they end in the
    generic failure handler with a [TypeError] and leave the world as it was,
    no verification email being asked for; and when the manager reports the
    email as verified already, the page of the email verification redirects
    to the personal information with [email_verified_already]. *)
Theorem pages_need_session_user {DB N} (M : Managers DB) (V : Views N)
    (req : Request) (w : World DB) :
  (session_user (session w) = None ->
     getPersonalInformationsController V req w = (PageNextError TypeError, w)
     /\ (is_Some (optionalBooleanSchema V (req_query req !! "new_code_sent")) ->
         getVerifyEmailController M V req w = (PageNextError TypeError, w)))
  /\ (forall u d,
        session_user (session w) = Some u ->
        is_Some (optionalBooleanSchema V (req_query req !! "new_code_sent")) ->
        sendEmailAddressVerificationEmail M (user_email u) true (db w)
        = (Throw EmailVerifiedAlreadyError, d) ->
        getVerifyEmailController M V req w
        = (PageRedirect
             "/users/personal-information?notification=email_verified_already",
           mkWorld (session w) d)).
Proof.
  split.
  - intros Hu. split.
    + unfold_pages; ctl_unfold. rewrite Hu. reflexivity.
    + intros [b Hb]. unfold_pages; ctl_unfold. rewrite Hb. simpl.
      rewrite Hu. reflexivity.
  - intros u d Hu [b Hb] Hm. unfold_pages; ctl_unfold. rewrite Hb. simpl.
    rewrite Hu. simpl. rewrite Hm. reflexivity.
Qed.

(** X18: a link without its token is handled differently by the two pages
    that take one: the magic-link page redirects to the start of the login
    with [invalid_magic_link], the change-password page ends in the generic
    failure handler with the schema error; both leave the world as it was. *)
Theorem link_without_token {DB N} (V : Views N) (req : Request) (w : World DB) :
  (min1 (req_query req !! "magic_link_token") = None ->
     getSignInWithMagicLinkController req w
     = (Redirect "/users/start-sign-in?notification=invalid_magic_link", w))
  /\ (min1 (req_query req !! "reset_password_token") = None ->
      getChangePasswordController V req w
      = (PageNextError (ZodError ["reset_password_token"]), w)).
Proof.
  split; intros H.
  - unfold_handlers; ctl_unfold. rewrite H. reflexivity.
  - unfold_pages; ctl_unfold. rewrite H. reflexivity.
Qed.

(** X19: an empty login is echoed by the start of the login as an empty
    [login_hint] parameter, and the start page refuses an empty [login_hint]:
    it ends in the generic failure handler with the schema error instead of
    showing the form, and leaves the world as it was. *)
Theorem empty_login_hint_refused {DB N} (M : Managers DB) (V : Views N)
    (req : Request) (w : World DB) :
  (req_body req !! "login" = Some "" ->
     emailSchema M (Some "") = None ->
     postStartSignInController M req w
     = (Redirect "/users/start-sign-in?notification=invalid_email&login_hint=", w))
  /\ (req_query req !! "login_hint" = Some "" ->
      exists issues,
        getStartSignInController V req w = (PageNextError (ZodError issues), w)
        /\ "login_hint" ∈ issues).
Proof.
  split.
  - intros Hb Hs. unfold_handlers; ctl_unfold. rewrite Hb, Hs. reflexivity.
  - intros Hq. unfold_pages; ctl_unfold. rewrite Hq. simpl.
    destruct (optional_min1 (req_query req !! "did_you_mean")); simpl;
      eexists; (split; [reflexivity|]); apply list_elem_of_In; simpl; auto.
Qed.

(** * Further instances on the example store *)

Lemma user_installed_only_by_authentication_witness :
  let M := specManagers exampleConfig in
  let req := form [("magic_link_token", "ml-4f9a")] in
  let w := mkWorld pendingSession exampleStore in
  session_user (session (snd (handle M ConsumeMagicLink req w))) = Some alice
  /\ fst (handle M ConsumeMagicLink req w) = Next.
Proof.
  intros M req w.
  assert (H : session_user (session (snd (handle M ConsumeMagicLink req w)))
              = Some alice) by reflexivity.
  split; [exact H|].
  apply (user_installed_only_by_authentication M ConsumeMagicLink req w alice
           eq_refl H).
Defined.

Lemma referer_used_once_witness :
  let M := specManagers exampleConfig in
  let w := mkWorld trustedRefererSession exampleStore in
  fst (issueSessionOrRedirectController M (form []) w) = Redirect "/dashboard"
  /\ issueSessionOrRedirectController M (form [])
       (snd (issueSessionOrRedirectController M (form []) w))
     = (Redirect "/", snd (issueSessionOrRedirectController M (form []) w)).
Proof.
  intros M w. split; [reflexivity|].
  apply (referer_used_once M (form []) (form []) w "/dashboard");
    [reflexivity | reflexivity | reflexivity | discriminate].
Defined.

Lemma malformed_payload_runs_no_manager_witness :
  let M := specManagers exampleConfig in
  let w := mkWorld aliceSession exampleStore in
  postStartSignInController M (form []) w
  = (Redirect "/users/start-sign-in?notification=invalid_email&login_hint=undefined",
     w)
  /\ postResetPasswordController M (form [("login", "")]) w
     = (Redirect "/users/reset-password?notification=invalid_email", w)
  /\ postVerifyEmailController M (form [("verify_email_token", "")]) w
     = (Redirect "/users/verify-email?notification=invalid_verify_email_code", w)
  /\ snd (postSignInWithMagicLinkController M (form []) w) = w
  /\ postPersonalInformationsController M
       (form [("given_name", "Alice"); ("family_name", "Martin");
              ("phone_number", ""); ("job", "engineer")]) w
     = (Redirect
          "/users/personal-information?notification=invalid_personal_informations",
        w).
Proof.
  intros M w. split; [|split; [|split; [|split]]].
  - apply (proj1 (malformed_payload_runs_no_manager M (form []) w)). reflexivity.
  - apply (proj1 (malformed_payload_runs_no_manager M (form [("login", "")]) w)).
    reflexivity.
  - apply (proj1 (proj2 (malformed_payload_runs_no_manager M
                           (form [("verify_email_token", "")]) w))).
    reflexivity.
  - apply (proj1 (proj2 (proj2 (malformed_payload_runs_no_manager M (form []) w)))).
    reflexivity.
  - apply (proj2 (proj2 (proj2 (malformed_payload_runs_no_manager M
             (form [("given_name", "Alice"); ("family_name", "Martin");
                    ("phone_number", ""); ("job", "engineer")]) w)))
             "phone_number"); [|reflexivity].
    apply list_elem_of_In. simpl. auto.
Defined.

Lemma change_password_malformed_payload_witness :
  let M := specManagers exampleConfig in
  let w := mkWorld anonymousSession exampleStore in
  postChangePasswordController M (form [("password", "a long enough password")]) w
  = (Redirect "/users/reset-password?notification=invalid_token", w)
  /\ postChangePasswordController M (form [("reset_password_token", "rp-77c1")]) w
     = (Redirect ("/users/change-password?reset_password_token=rp-77c1"
                    +:+ "&notification=weak_password"), w).
Proof.
  intros M w. split.
  - apply (proj1 (change_password_malformed_payload M
                    (form [("password", "a long enough password")]) w)).
    reflexivity.
  - apply (proj2 (change_password_malformed_payload M
                    (form [("reset_password_token", "rp-77c1")]) w) "rp-77c1");
      reflexivity.
Defined.

Lemma handlers_need_session_user_witness :
  let M := specManagers exampleConfig in
  let req := form [("verify_email_token", "0123456789");
                   ("given_name", "Alice"); ("family_name", "Martin");
                   ("phone_number", "0123456789"); ("job", "engineer")] in
  let w := mkWorld pendingSession exampleStore in
  postSendEmailVerificationController M req w = (NextError TypeError, w)
  /\ postVerifyEmailController M req w = (NextError TypeError, w)
  /\ postPersonalInformationsController M req w = (NextError TypeError, w).
Proof.
  intros M req w.
  destruct (handlers_need_session_user M req w eq_refl) as (H1 & H2 & H3).
  split; [exact H1|]. split.
  - apply H2. eexists. reflexivity.
  - apply H3; eexists; reflexivity.
Defined.

Lemma blank_code_reaches_verifyEmail_witness :
  let M := specManagers exampleConfig in
  let req := form [("verify_email_token", "  ")] in
  let w := mkWorld aliceSession blankCodeStore in
  strip_whitespace "  " = ""
  /\ fst (postVerifyEmailController M req w) = Next.
Proof.
  intros M req w. split; [reflexivity|].
  destruct (verifyEmail M (user_email alice) "" (db w)) as [[u'|e] d] eqn:E;
    [|discriminate E].
  rewrite (proj1 (blank_code_reaches_verifyEmail M req w "  " alice
                    eq_refl ltac:(discriminate) eq_refl eq_refl) u' d E).
  reflexivity.
Defined.

Lemma failure_redirect_notification_witness :
  let M := specManagers exampleConfig in
  let req := form [("password", "not the password")] in
  let w := mkWorld pendingSession exampleStore in
  fst (handle M PasswordLogin req w)
  = Redirect "/users/sign-in?notification=invalid_credentials"
  /\ ((exists label m,
         first_query_parameter
           "/users/sign-in?notification=invalid_credentials" "notification" label
         /\ notificationMessages !! label = Some m
         /\ (type m = "error" \/ type m = "warning"))
      \/ (PasswordLogin = ConsumePasswordReset
          /\ "/users/sign-in?notification=invalid_credentials"
             = "/users/change-password?reset_password_token="
                 +:+ template (req_body req !! "reset_password_token")
                 +:+ "&notification=weak_password")).
Proof.
  intros M req w.
  assert (H : fst (handle M PasswordLogin req w)
              = Redirect "/users/sign-in?notification=invalid_credentials")
    by reflexivity.
  split; [exact H|].
  apply (failure_redirect_notification M PasswordLogin req w _ H).
  reflexivity.
Defined.

Lemma login_flow_composes_witness :
  let M := specManagers exampleConfig in
  let req1 := form [("login", "alice@example.com")] in
  let req2 := form [("password", "correct horse battery")] in
  let w := mkWorld anonymousSession exampleStore in
  fst (postStartSignInController M req1 w) = Redirect "/users/sign-in"
  /\ postSignInMiddleware M req2 (snd (postStartSignInController M req1 w))
     = (Next, mkWorld aliceSession exampleStore).
Proof.
  intros M req1 req2 w.
  apply (login_flow_composes M req1 req2 w "alice@example.com"
           "alice@example.com" "correct horse battery" true alice
           exampleStore exampleStore); reflexivity.
Defined.

Lemma start_page_email_error_witness :
  let req := link [("notification", "invalid_email"); ("login_hint", "bob")] in
  let w := mkWorld pendingSession exampleStore in
  getStartSignInController exampleViews req w
  = (PageRender "user/start-sign-in"
       [("notifications", LBoolean false);
        ("hasEmailError", LBoolean true);
        ("didYouMean", LUndefined);
        ("loginHint", LString "bob");
        ("csrfToken", LString "csrf")], w).
Proof.
  intros req w.
  apply (start_page_email_error exampleViews req w (Some "bob") None);
    reflexivity.
Defined.

Lemma pages_need_session_user_witness :
  let M := specManagers exampleConfig in
  let w := mkWorld anonymousSession exampleStore in
  let w' := mkWorld verifiedSession verifiedStore in
  getPersonalInformationsController exampleViews (link []) w
  = (PageNextError TypeError, w)
  /\ getVerifyEmailController M exampleViews (link []) w
     = (PageNextError TypeError, w)
  /\ getVerifyEmailController M exampleViews (link []) w'
     = (PageRedirect
          "/users/personal-information?notification=email_verified_already", w').
Proof.
  intros M w w'.
  destruct (proj1 (pages_need_session_user M exampleViews (link []) w) eq_refl)
    as [H1 H2].
  split; [exact H1|]. split.
  - apply H2. eexists. reflexivity.
  - apply (proj2 (pages_need_session_user M exampleViews (link []) w')
             verifiedAlice verifiedStore);
      [reflexivity | eexists; reflexivity | reflexivity].
Defined.

Lemma link_without_token_witness :
  let w := mkWorld anonymousSession exampleStore in
  getSignInWithMagicLinkController (link []) w
  = (Redirect "/users/start-sign-in?notification=invalid_magic_link", w)
  /\ getChangePasswordController exampleViews (link []) w
     = (PageNextError (ZodError ["reset_password_token"]), w).
Proof.
  intros w. split.
  - apply (proj1 (link_without_token exampleViews (link []) w)). reflexivity.
  - apply (proj2 (link_without_token exampleViews (link []) w)). reflexivity.
Defined.

Lemma empty_login_hint_refused_witness :
  let M := specManagers exampleConfig in
  let w := mkWorld anonymousSession exampleStore in
  postStartSignInController M (form [("login", "")]) w
  = (Redirect "/users/start-sign-in?notification=invalid_email&login_hint=", w)
  /\ exists issues,
       getStartSignInController exampleViews
         (link [("notification", "invalid_email"); ("login_hint", "")]) w
       = (PageNextError (ZodError issues), w)
       /\ "login_hint" ∈ issues.
Proof.
  intros M w. split.
  - apply (proj1 (empty_login_hint_refused M exampleViews (form [("login", "")]) w));
      reflexivity.
  - apply (proj2 (empty_login_hint_refused M exampleViews
                    (link [("notification", "invalid_email"); ("login_hint", "")])
                    w)).
    reflexivity.
Defined.
